(** * app1.py: the LinkedIn post generator, its handlers and their properties

    The Streamlit script [app1.py] has two button callbacks, [generate_text]
    and [generate_image], which read and write [st.session_state], talk to
    the OpenAI wrapper [oai.Openai] and write to the log.  Around them the
    script configures the session state, loads two catalog tables through a
    memoised loader and renders the buttons.

    The embedding follows the script:
    - a Python [str] is a [string] (characters with code points below 256),
      a Python [int] is a [Z];
    - [st.session_state] is a record with the six keys the script creates;
    - a callback is a computation over the session state, the state of the
      remote service and the log, which may end by raising, and which
      records every operation of the client it invokes, in order;
    - the client [oai.Openai] is not part of the script: it is taken as a
      parameter, three operations over a state of the service's own. *)

From Stdlib Require Import ZArith String Ascii List Lia DecimalString QArith.
From stdpp Require Import gmap strings.
Import ListNotations.

Open Scope string_scope.
Open Scope Z_scope.

(** ** Python strings *)

Module Str.

(** The line feed [\n] and the double quote, by their codes. *)
Definition LF : ascii := ascii_of_nat 10.
Definition DQUOTE : ascii := ascii_of_nat 34.
Definition nl : string := String LF "".

(** Truth value of a [str]: false exactly for the empty string. *)
Definition truthy (s : string) : bool :=
  match s with
  | EmptyString => false
  | String _ _ => true
  end.

(** [str(n)] for an [int], as an f-string formats it. *)
Definition of_int (n : Z) : string := NilZero.string_of_int (Z.to_int n).

(** [c.isspace()] on the code points below 256: tab, line feed, vertical
    tab, form feed, carriage return, the four separators 0x1c-0x1f, space,
    next line (0x85) and no-break space (0xa0). *)
Definition isspace (c : ascii) : bool :=
  let n := nat_of_ascii c in
  ((9 <=? n) && (n <=? 13) || (28 <=? n) && (n <=? 32)
   || (n =? 133) || (n =? 160))%nat.

Fixpoint lstrip (s : string) : string :=
  match s with
  | EmptyString => EmptyString
  | String c s' => if isspace c then lstrip s' else s
  end.

Fixpoint rstrip (s : string) : string :=
  match s with
  | EmptyString => EmptyString
  | String c s' =>
      match rstrip s' with
      | EmptyString => if isspace c then EmptyString else String c EmptyString
      | r => String c r
      end
  end.

(** [s.strip()] *)
Definition strip (s : string) : string := rstrip (lstrip s).

(** [s.replace(c, empty)] for a one-character [c]: every occurrence goes. *)
Fixpoint remove (c : ascii) (s : string) : string :=
  match s with
  | EmptyString => EmptyString
  | String d s' => if Ascii.eqb d c then remove c s' else String d (remove c s')
  end.

(** [s.split(c)[0]]: the text before the first [c], all of [s] if none. *)
Fixpoint split_0 (c : ascii) (s : string) : string :=
  match s with
  | EmptyString => EmptyString
  | String d s' => if Ascii.eqb d c then EmptyString else String d (split_0 c s')
  end.

(** [.strip()] and then the removal of every double quote, as applied to
    every completion. *)
Definition clean (s : string) : string := remove DQUOTE (strip s).

End Str.

(** ** The regular expression [#[A-Za-z0-9_]+] *)

Module Re.

(** The character class [[A-Za-z0-9_]]. *)
Definition word_char (c : ascii) : bool :=
  let n := nat_of_ascii c in
  ((65 <=? n) && (n <=? 90) || (97 <=? n) && (n <=? 122)
   || (48 <=? n) && (n <=? 57) || (n =? 95))%nat.

Definition HASH : ascii := ascii_of_nat 35.

(** Number of leading characters of [s] in the class: what the greedy
    [[A-Za-z0-9_]+] consumes. *)
Fixpoint word_run (s : string) : nat :=
  match s with
  | EmptyString => O
  | String c s' => if word_char c then S (word_run s') else O
  end.

(** Length of the match of the pattern at the start of [s], if any. *)
Definition match_at (s : string) : option nat :=
  match s with
  | EmptyString => None
  | String c s' =>
      if Ascii.eqb c HASH then
        match word_run s' with
        | O => None
        | S k => Some (S (S k))
        end
      else None
  end.

(** The scan of [re.sub] with an empty replacement: [skip] characters of the current
    match are still to be dropped; otherwise a match starting here is
    dropped whole, and a character that starts none is copied. *)
Fixpoint sub_scan (skip : nat) (s : string) : string :=
  match s with
  | EmptyString => EmptyString
  | String c s' =>
      match skip with
      | S k => sub_scan k s'
      | O =>
          match match_at s with
          | Some (S k) => sub_scan k s'
          | _ => String c (sub_scan O s')
          end
      end
  end.

(** [re.sub] of the pattern by the empty string in [s]. *)
Definition sub_hashtags (s : string) : string := sub_scan O s.

(** [s] is a match of the pattern: a hash sign and then one or more
    characters of the class, and nothing else. *)
Definition fullmatch (s : string) : bool :=
  match match_at s with
  | Some n => Nat.eqb n (String.length s)
  | None => false
  end.

(** Some substring of [s] matches the pattern. *)
Fixpoint search (s : string) : bool :=
  match s with
  | EmptyString => false
  | String _ s' =>
      match match_at s with
      | Some _ => true
      | None => search s'
      end
  end.

End Re.

(** ** Session state *)

(** The six keys of [st.session_state]. *)
Record session_state : Type := mkSession {
  post : string;
  image : string;
  text_error : string;
  image_error : string;
  feeling_lucky : bool;
  n_requests : Z
}.

Definition set_post (v : string) (s : session_state) : session_state :=
  mkSession v (image s) (text_error s) (image_error s) (feeling_lucky s) (n_requests s).
Definition set_image (v : string) (s : session_state) : session_state :=
  mkSession (post s) v (text_error s) (image_error s) (feeling_lucky s) (n_requests s).
Definition set_text_error (v : string) (s : session_state) : session_state :=
  mkSession (post s) (image s) v (image_error s) (feeling_lucky s) (n_requests s).
Definition set_feeling_lucky (v : bool) (s : session_state) : session_state :=
  mkSession (post s) (image s) (text_error s) (image_error s) v (n_requests s).
Definition set_n_requests (v : Z) (s : session_state) : session_state :=
  mkSession (post s) (image s) (text_error s) (image_error s) (feeling_lucky s) v.

(** The block [if key not in st.session_state: ...] of the script: a new
    session ([None]) gets every key with its default, an existing one is
    left as it is. *)
Definition configure_state (s : option session_state) : session_state :=
  match s with
  | Some s => s
  | None => mkSession "" "" "" "" false 0
  end.

(** The assignment [st.session_state.feeling_lucky = not st.button(...)] of
    each script run; the button returns [True] in the run that follows a
    click on [Generate text]. *)
Definition render_generate_button (clicked : bool) (s : session_state) : session_state :=
  set_feeling_lucky (negb clicked) s.

(** ** Effects of a callback *)

(** How a call ends: it returns a value or raises. *)
Inductive outcome (A : Type) : Type :=
| Returned (a : A)
| Raised (exn : string).
Arguments Returned {A} a.
Arguments Raised {A} exn.

(** An operation of the client, as invoked: [complete] carries its
    [temperature] and [max_tokens] keywords when they are given. *)
Inductive call : Type :=
| Moderate (prompt : string)
| Complete (prompt : string) (temperature : option Q) (max_tokens : option Z)
| Image (prompt : string).

Section Callbacks.

(** State of the remote service: whatever decides its answers. *)
Context {W : Type}.

(** The interface of [oai.Openai]. *)
Record Openai : Type := mkOpenai {
  moderate : string -> W -> outcome bool * W;
  complete : string -> option Q -> option Z -> W -> outcome string * W;
  image_of : string -> W -> outcome string * W
}.

Record world : Type := mkWorld {
  session : session_state;
  remote : W;
  logged : list string
}.

(** A finished run: how it ended, the world it left, and the client
    operations it invoked, oldest first. *)
Record run (A : Type) : Type := mkRun {
  result : outcome A;
  final : world;
  calls : list call
}.
Arguments mkRun {A}.
Arguments result {A}.
Arguments final {A}.
Arguments calls {A}.

Definition M (A : Type) : Type := world -> run A.

Definition ret {A} (a : A) : M A := fun w => mkRun (Returned a) w [].

Definition bind {A B} (m : M A) (k : A -> M B) : M B :=
fun w =>
  match m w with
  | mkRun (Returned a) w1 c1 =>
      match k a w1 with
      | mkRun o w2 c2 => mkRun o w2 (c1 ++ c2)
      end
  | mkRun (Raised e) w1 c1 => mkRun (Raised e) w1 c1
  end.

Notation "x <- m ;; k" := (bind m (fun x => k))
  (at level 20, m at level 99, k at level 200, only parsing).
Notation "m ;; k" := (bind m (fun _ => k))
  (at level 100, k at level 200, only parsing, right associativity).

(** Reading and assigning a key of the session state. *)
Definition read {A} (field : session_state -> A) : M A :=
  fun w => mkRun (Returned (field (session w))) w [].

Definition assign {A} (setter : A -> session_state -> session_state) (v : A) : M unit :=
  fun w => mkRun (Returned tt) (mkWorld (setter v (session w)) (remote w) (logged w)) [].

(** [logging.info(msg)] *)
Definition logging_info (msg : string) : M unit :=
  fun w => mkRun (Returned tt) (mkWorld (session w) (remote w) (logged w ++ [msg])) [].

(** Invoking an operation of the client: the service answers and moves
    on, and the invocation is recorded. *)
Definition invoke {A} (c : call) (op : W -> outcome A * W) : M A :=
  fun w =>
    let '(o, x) := op (remote w) in
    mkRun o (mkWorld (session w) x (logged w)) [c].

Variable openai : Openai.

Definition openai_moderate (prompt : string) : M bool :=
  invoke (Moderate prompt) (moderate openai prompt).

Definition openai_complete (prompt : string) (temperature : option Q)
    (max_tokens : option Z) : M string :=
  invoke (Complete prompt temperature max_tokens)
         (complete openai prompt temperature max_tokens).

Definition openai_image (prompt : string) : M string :=
  invoke (Image prompt) (image_of openai prompt).

(** *** generate_text *)

Definition text_limit_message : string :=
  "Too many requests. Please wait a few seconds before generating another post.".

Definition image_limit_message : string :=
  "Too many requests. Please wait a few seconds before generating another text or image.".

(** [style_prompt]: the style and a space if [style] is non-empty, else
    the empty string. *)
Definition style_prompt (style : string) : string :=
  if Str.truthy style then style ++ " " else "".

(** The f-string assigned to [prompt] in [generate_text]. *)
Definition text_prompt (topic style : string) : string :=
  "Write a " ++ style_prompt style
    ++ " LinkedIn Post about the Snowflake data platform feature " ++ topic
    ++ ":" ++ Str.nl ++ Str.nl
    ++ " include the hashtags datasuperhero and masteringsnowflake".

(** [style_output]: a comma, [stype:] and the style if [style] is
    non-empty, else the empty string. *)
Definition style_output (style : string) : string :=
  if Str.truthy style then ", stype: " ++ style else "".

(** The callback of [Generate text] and [Regenerate text]. The two [with]
    blocks around the body only draw a spinner; the body is the gate, the
    three assignments, the topic check, and then moderation and completion.
    The counter is read and written where the script does: [n_requests += 1]
    stands before the call of [complete], whose value is then cleaned and
    assigned to [post]. *)
Definition generate_text (topic style : string) : M unit :=
  n <- read n_requests ;;
  if 5 <=? n then
    assign set_text_error text_limit_message ;;
    n <- read n_requests ;;
    logging_info ("Session request limit reached: " ++ Str.of_int n) ;;
    assign set_n_requests 1 ;;
    ret tt
  else
    assign set_post "" ;;
    assign set_image "" ;;
    assign set_text_error "" ;;
    if negb (Str.truthy topic) then
      assign set_text_error "Please enter a topic" ;;
      ret tt
    else
      let prompt := text_prompt topic style in
      flagged <- openai_moderate prompt ;;
      if (flagged : bool) then
        assign set_text_error "Input flagged as inappropriate." ;;
        logging_info ("Topic: " ++ topic ++ style_output style ++ Str.nl) ;;
        ret tt
      else
        assign set_text_error "" ;;
        n <- read n_requests ;;
        assign set_n_requests (n + 1) ;;
        reply <- openai_complete prompt None None ;;
        assign set_post (Str.clean reply) ;;
        p <- read post ;;
        logging_info ("Topic: " ++ topic ++ style_output style ++ Str.nl
                      ++ "Post: " ++ p).

(** *** generate_image *)

(** The f-string assigned to [processing_prompt]. *)
Definition processing_prompt (prompt : string) : string :=
  "In less than 300 words create a detailed but brief description of an image that captures "
    ++ "the essence of the following text:" ++ Str.nl
    ++ Re.sub_hashtags prompt ++ Str.nl ++ Str.nl.

(** The completion as [generate_image] passes it on: cleaned, cut at its
    first full stop, and a full stop appended. *)
Definition first_sentence (reply : string) : string :=
  Str.split_0 "." (Str.clean reply) ++ ".".

(** The callback of [Generate image] and [Regenerate image]: the gate, the
    completion that describes the image, [n_requests += 1], and the image
    operation, whose value is assigned to [image]. *)
Definition generate_image (prompt : string) : M unit :=
  n <- read n_requests ;;
  if 5 <=? n then
    assign set_text_error image_limit_message ;;
    n <- read n_requests ;;
    logging_info ("Session request limit reached: " ++ Str.of_int n) ;;
    assign set_n_requests 1 ;;
    ret tt
  else
    reply <- openai_complete (processing_prompt prompt) (Some (1 # 2)%Q) (Some 200) ;;
    let processed_prompt := first_sentence reply in
    n <- read n_requests ;;
    assign set_n_requests (n + 1) ;;
    img <- openai_image processed_prompt ;;
    assign set_image img ;;
    logging_info ("Post: " ++ prompt ++ Str.nl ++ "Image prompt: " ++ processed_prompt).

End Callbacks.

Arguments Openai W : clear implicits.
Arguments world W : clear implicits.
Arguments run W A : clear implicits.
Arguments M W A : clear implicits.
Arguments mkRun {W A} result final calls.
Arguments result {W A} r.
Arguments final {W A} r.
Arguments calls {W A} r.
Arguments mkWorld {W} session remote logged.

(** ** The catalog loader *)

Section Catalog.

(** [D] is the state of the database behind the Snowpark session, [V] the
    type of a cell.  A table has at least one column, so a [Row] has a
    first cell. *)
Context {D V : Type}.

Record Row : Type := mkRow {
  row_0 : V;
  row_rest : list V
}.

(** [session.table(table_name).collect()]: the one query of the loader. *)
Variable collect : string -> D -> outcome (list Row) * D.

(** The process: the database, the entries of [st.cache_data] for
    [load_sf_data], keyed by the argument, and the queries sent so far. *)
Record process : Type := mkProcess {
  database : D;
  cache : gmap string (list Row);
  queries : list string
}.

(** The body of [load_sf_data], as it runs on a cache miss. *)
Definition load_sf_data_body (table_name : string) (p : process)
    : outcome (list Row) * process :=
  let '(o, d) := collect table_name (database p) in
  (o, mkProcess d (cache p) (queries p ++ [table_name])).

(** [load_sf_data] under [@st.cache_data]: an entry for the argument is
    returned as it is; otherwise the body runs and its value, if it
    returns one, is stored. *)
Definition load_sf_data (table_name : string) (p : process)
    : outcome (list Row) * process :=
  match cache p !! table_name with
  | Some table => (Returned table, p)
  | None =>
      match load_sf_data_body table_name p with
      | (Returned table, p') =>
          (Returned table,
           mkProcess (database p') (<[table_name := table]> (cache p')) (queries p'))
      | (Raised e, p') => (Raised e, p')
      end
  end.

(** [df = load_sf_data(name)] and then [[row[0] for row in df]], as the
    script does for both catalogs. *)
Definition load_column (table_name : string) (p : process)
    : outcome (list V) * process :=
  match load_sf_data table_name p with
  | (Returned df, p') => (Returned (map row_0 df), p')
  | (Raised e, p') => (Raised e, p')
  end.

End Catalog.

Arguments Row V : clear implicits.
Arguments process D V : clear implicits.

(** ** The buttons *)

(** [random.choice(seq)] on a [str]: [IndexError] on the empty string,
    otherwise the one-character string at the index [i] that the generator
    draws below [len(seq)]. The generator gives no index at or past the
    length of a non-empty string: such an [i] stands for no run of the
    script, and [drawn_below] below says which indices do. *)
Definition random_choice (seq : string) (i : nat) : outcome string :=
  match String.get i seq with
  | Some c => Returned (String c "")
  | None => Raised "IndexError"
  end.

(** The [args] of the button [Regenerate text].  [topic] and [style] are the
    two variables of the script at that point: the values of the two select
    boxes, for select boxes that have options and so hold a string (with no
    option a select box holds [None], which is not a value here).  [i] and
    [j] are the indices the generator draws. *)
Definition regenerate_args (lucky : bool) (topic style : string) (i j : nat)
    : outcome (string * string) :=
  if lucky then
    match random_choice topic i with
    | Returned t =>
        match random_choice style j with
        | Returned s => Returned (t, s)
        | Raised e => Raised e
        end
    | Raised e => Raised e
    end
  else Returned (topic, style).

(** What happens in a session: a click runs a callback, and the script runs
    again, the button [Generate text] having been clicked or not. *)
Inductive action : Type :=
| Generate_text (topic style : string)
| Generate_image (prompt : string)
| Script_run (generate_clicked : bool).

Definition perform {W} (openai : Openai W) (a : action) : M W unit :=
  match a with
  | Generate_text topic style => generate_text openai topic style
  | Generate_image prompt => generate_image openai prompt
  | Script_run clicked =>
      fun w =>
        mkRun (Returned tt)
          (mkWorld (render_generate_button clicked (configure_state (Some (session w))))
                   (remote w) (logged w))
          []
  end.

(** A callback that raises leaves the session as it was at that point and
    the next action starts from there. *)
Fixpoint perform_all {W} (openai : Openai W) (l : list action) (w : world W) : world W :=
  match l with
  | [] => w
  | a :: l' => perform_all openai l' (final (perform openai a w))
  end.

(** The world of a new session. *)
Definition new_session {W} (x : W) : world W :=
  mkWorld (configure_state None) x [].

Definition is_callback (a : action) : bool :=
  match a with
  | Script_run _ => false
  | _ => true
  end.

Definition returned {A} (o : outcome A) : bool :=
  match o with
  | Returned _ => true
  | Raised _ => false
  end.

Definition is_complete (c : call) : bool :=
  match c with
  | Complete _ _ _ => true
  | _ => false
  end.

Definition is_image (c : call) : bool :=
  match c with
  | Image _ => true
  | _ => false
  end.

(** The last operation a callback asks of the client, the one that
    delivers: [complete] for a post, [image] for an image. *)
Definition delivers (a : action) (c : call) : bool :=
  match a with
  | Generate_text _ _ => is_complete c
  | Generate_image _ => is_image c
  | Script_run _ => false
  end.

(** The run has invoked the delivering operation (whatever came of it). *)
Definition issued {W} (a : action) (r : run W unit) : bool :=
  existsb (delivers a) (calls r).

(** A generation call is successful when the callback returned and the
    client delivered what was asked for. *)
Definition successful {W} (a : action) (r : run W unit) : bool :=
  returned (result r) && issued a r.

(** Every callback of [l] is successful, each run from where the previous
    action left the world. *)
Fixpoint all_successful {W} (openai : Openai W) (l : list action) (w : world W) : bool :=
  match l with
  | [] => true
  | a :: l' =>
      (negb (is_callback a) || successful a (perform openai a w))
      && all_successful openai l' (final (perform openai a w))
  end.

(** ** Clients for examples *)

(** A service without state that gives the same three answers each time. *)
Definition canned (m : outcome bool) (c i : outcome string) : Openai unit :=
  mkOpenai (fun _ x => (m, x)) (fun _ _ _ x => (c, x)) (fun _ x => (i, x)).

(** * Descriptions of runs *)

(** ** The session around a call *)

(** The three assignments that open [generate_text] past the gate. *)
Definition cleared (s : session_state) : session_state :=
  set_text_error "" (set_image "" (set_post "" s)).

Definition limit_log (s : session_state) : string :=
  "Session request limit reached: " ++ Str.of_int (n_requests s).

(** The same world with another session state. *)
Definition with_session {W} (s : session_state) (w : world W) : world W :=
  mkWorld s (remote w) (logged w).

Section Runs.

Context {W : Type} (openai : Openai W).

(** What a rejected call looks like from outside: the callback returned,
    asked nothing of the client, left the service as it was, put one of
    the two messages in [text_error] and the counter at 1. *)
Definition rate_limited (w : world W) (r : run W unit) : Prop :=
  result r = Returned tt
  /\ calls r = []
  /\ remote (final r) = remote w
  /\ n_requests (session (final r)) = 1
  /\ (text_error (session (final r)) = text_limit_message
      \/ text_error (session (final r)) = image_limit_message)
  /\ text_error (session (final r)) <> "".

(** The six ways through [generate_text], each with the run it gives. *)
Inductive text_path (topic style : string) (w : world W) : run W unit -> Prop :=
| text_throttled :
    5 <= n_requests (session w) ->
    text_path topic style w
      (mkRun (Returned tt)
         (mkWorld (set_n_requests 1 (set_text_error text_limit_message (session w)))
                  (remote w) (logged w ++ [limit_log (session w)]))
         [])
| text_no_topic :
    n_requests (session w) < 5 ->
    topic = "" ->
    text_path topic style w
      (mkRun (Returned tt)
         (mkWorld (set_text_error "Please enter a topic" (cleared (session w)))
                  (remote w) (logged w))
         [])
| text_moderation_failed e x :
    n_requests (session w) < 5 ->
    topic <> "" ->
    moderate openai (text_prompt topic style) (remote w) = (Raised e, x) ->
    text_path topic style w
      (mkRun (Raised e) (mkWorld (cleared (session w)) x (logged w))
         [Moderate (text_prompt topic style)])
| text_flagged x :
    n_requests (session w) < 5 ->
    topic <> "" ->
    moderate openai (text_prompt topic style) (remote w) = (Returned true, x) ->
    text_path topic style w
      (mkRun (Returned tt)
         (mkWorld (set_text_error "Input flagged as inappropriate." (cleared (session w)))
                  x
                  (logged w ++ ["Topic: " ++ topic ++ style_output style ++ Str.nl]))
         [Moderate (text_prompt topic style)])
| text_completion_failed x e y :
    n_requests (session w) < 5 ->
    topic <> "" ->
    moderate openai (text_prompt topic style) (remote w) = (Returned false, x) ->
    complete openai (text_prompt topic style) None None x = (Raised e, y) ->
    text_path topic style w
      (mkRun (Raised e)
         (mkWorld (set_n_requests (n_requests (session w) + 1) (cleared (session w)))
                  y (logged w))
         [Moderate (text_prompt topic style);
          Complete (text_prompt topic style) None None])
| text_done x reply y :
    n_requests (session w) < 5 ->
    topic <> "" ->
    moderate openai (text_prompt topic style) (remote w) = (Returned false, x) ->
    complete openai (text_prompt topic style) None None x = (Returned reply, y) ->
    text_path topic style w
      (mkRun (Returned tt)
         (mkWorld (set_post (Str.clean reply)
                     (set_n_requests (n_requests (session w) + 1) (cleared (session w))))
                  y
                  (logged w ++ ["Topic: " ++ topic ++ style_output style ++ Str.nl
                                ++ "Post: " ++ Str.clean reply]))
         [Moderate (text_prompt topic style);
          Complete (text_prompt topic style) None None]).

(** The four ways through [generate_image]. *)
Inductive image_path (prompt : string) (w : world W) : run W unit -> Prop :=
| image_throttled :
    5 <= n_requests (session w) ->
    image_path prompt w
      (mkRun (Returned tt)
         (mkWorld (set_n_requests 1 (set_text_error image_limit_message (session w)))
                  (remote w) (logged w ++ [limit_log (session w)]))
         [])
| image_completion_failed e x :
    n_requests (session w) < 5 ->
    complete openai (processing_prompt prompt) (Some (1 # 2)%Q) (Some 200) (remote w)
      = (Raised e, x) ->
    image_path prompt w
      (mkRun (Raised e) (mkWorld (session w) x (logged w))
         [Complete (processing_prompt prompt) (Some (1 # 2)%Q) (Some 200)])
| image_failed reply x e y :
    n_requests (session w) < 5 ->
    complete openai (processing_prompt prompt) (Some (1 # 2)%Q) (Some 200) (remote w)
      = (Returned reply, x) ->
    image_of openai (first_sentence reply) x = (Raised e, y) ->
    image_path prompt w
      (mkRun (Raised e)
         (mkWorld (set_n_requests (n_requests (session w) + 1) (session w)) y (logged w))
         [Complete (processing_prompt prompt) (Some (1 # 2)%Q) (Some 200);
          Image (first_sentence reply)])
| image_done reply x img y :
    n_requests (session w) < 5 ->
    complete openai (processing_prompt prompt) (Some (1 # 2)%Q) (Some 200) (remote w)
      = (Returned reply, x) ->
    image_of openai (first_sentence reply) x = (Returned img, y) ->
    image_path prompt w
      (mkRun (Returned tt)
         (mkWorld (set_image img
                     (set_n_requests (n_requests (session w) + 1) (session w)))
                  y
                  (logged w ++ ["Post: " ++ prompt ++ Str.nl ++ "Image prompt: "
                                ++ first_sentence reply]))
         [Complete (processing_prompt prompt) (Some (1 # 2)%Q) (Some 200);
          Image (first_sentence reply)]).

End Runs.

(** ** The prompt as specified *)

(** The template as the specification words it: one space after the style
    clause, no line break before the hashtag sentence. *)
Definition spec_text_prompt (topic style : string) : string :=
  "Write a " ++ (if Str.truthy style then style ++ " " else "")
    ++ "LinkedIn Post about the Snowflake data platform feature " ++ topic
    ++ ": include the hashtags datasuperhero and masteringsnowflake".

(** ** Text without its hashtags *)

(** The leading run of class characters of [s], and what follows it. *)
Fixpoint run_prefix (s : string) : string :=
  match s with
  | EmptyString => EmptyString
  | String c s' => if Re.word_char c then String c (run_prefix s') else EmptyString
  end.

Fixpoint after_run (s : string) : string :=
  match s with
  | EmptyString => EmptyString
  | String c s' => if Re.word_char c then after_run s' else s
  end.

(** [removes s t]: [t] is [s] without its hashtags. Reading [s] from the
    left, a character that starts no match is kept, and a match is left
    out whole: it is a full match of the pattern and what follows it does
    not prolong it. *)
Inductive removes : string -> string -> Prop :=
| removes_end : removes "" ""
| removes_keep c s t :
    Re.match_at (String c s) = None ->
    removes s t ->
    removes (String c s) (String c t)
| removes_match m s t :
    Re.fullmatch m = true ->
    Re.word_run s = O ->
    removes s t ->
    removes (m ++ s) t.

(** ** Clients, sessions and a database for examples *)

(** A service that flags nothing and delivers, one that flags everything,
    one whose completion fails and one whose image operation fails. *)
Definition obliging : Openai unit :=
  canned (Returned false) (Returned "  A fine post. With a second sentence.  ")
         (Returned "https://images.example/1.png").

Definition censor : Openai unit :=
  canned (Returned true) (Returned "never asked") (Returned "never asked").

Definition no_completion : Openai unit :=
  canned (Returned false) (Raised "APIError") (Returned "never asked").

Definition no_image : Openai unit :=
  canned (Returned false) (Returned "A lighthouse. At dusk.") (Raised "APIError").

(** A session that has a post and an image and is at the limit, and the
    same below the limit. *)
Definition at_limit : world unit :=
  mkWorld (mkSession "An earlier post" "https://images.example/0.png" "" "" false 5) tt [].

Definition below_limit : world unit :=
  mkWorld (mkSession "An earlier post" "https://images.example/0.png" "" "" false 2) tt [].

(** Five generation calls with script runs in between. *)
Definition five_calls : list action :=
  [Script_run false;
   Generate_text "Search Optimization" "witty"; Script_run true;
   Generate_image "A fine post. #datasuperhero"; Script_run false;
   Generate_text "Time Travel" ""; Script_run false;
   Generate_image "A fine post. #masteringsnowflake"; Script_run false;
   Generate_text "Zero Copy Cloning" "formal"; Script_run true].

(** A completion in double quotes, with white space around it. *)
Definition quoted_reply : string :=
  " " ++ String Str.DQUOTE "A lighthouse" ++ String Str.DQUOTE ". At dusk. ".

Definition quoting : Openai unit :=
  canned (Returned false) (Returned quoted_reply) (Returned "https://images.example/2.png").

(** A database with the two catalog tables. *)
Definition catalogs (table_name : string) (d : unit)
    : outcome (list (Row string)) * unit :=
  if String.eqb table_name "snowflake_features" then
    (Returned [mkRow "Search Optimization" ["GA"]; mkRow "Time Travel" ["GA"]], d)
  else if String.eqb table_name "style" then
    (Returned [mkRow "witty" []; mkRow "formal" []], d)
  else (Raised "SnowparkSQLException", d).

Definition started : process unit string := mkProcess tt ∅ [].

(** * The rest of the script *)

(** ** Characters of a string *)

(** [c in s] for a one-character [c]. *)
Fixpoint char_in (c : ascii) (s : string) : bool :=
  match s with
  | EmptyString => false
  | String d s' => Ascii.eqb d c || char_in c s'
  end.

(** ** Loading the two catalogs *)

(** The two loads of the script, in its order: the topics from
    [snowflake_features], then the styles from [style]; a load that raises
    ends the script run. *)
Definition load_catalogs {D V : Type}
    (collect : string -> D -> outcome (list (Row V)) * D) (p : process D V)
    : outcome (list V * list V) * process D V :=
  match load_column collect "snowflake_features" p with
  | (Returned sffeatures, p1) =>
      match load_column collect "style" p1 with
      | (Returned style, p2) => (Returned (sffeatures, style), p2)
      | (Raised e, p2) => (Raised e, p2)
      end
  | (Raised e, p1) => (Raised e, p1)
  end.

(** ** The draws of the generator *)

(** [i] can be the index that [random.choice(seq)] works with: below the
    length of a non-empty [seq]; on the empty string no index is drawn. *)
Definition drawn_below (seq : string) (i : nat) : Prop :=
  seq = "" \/ (i < String.length seq)%nat.

(** ** The page below the select boxes *)

(** What the script draws from the first pair of columns on: buttons with
    their label, type and callback, placeholders, error banners, rules, the
    text area, the image, and what sits in a column. *)
Inductive widget : Type :=
| Button (label kind : string) (on_click : action)
| Placeholder
| Error_banner (msg : string)
| Markdown (body : string)
| Text_area (label value : string) (height : Z)
| Picture (src : string)
| Columns (n : nat)
| In_column (k : nat) (w : widget).

(** The part of a script run from [col1, col2 = st.columns(2)] to its end:
    the session state it leaves, what it has drawn, and how it ended.
    [clicked] is what the button [Generate text] returns, [topic] and
    [style] are the values of the two select boxes, [i] and [j] the indices
    the generator draws if it is asked. The arguments of [Regenerate text]
    are evaluated before that button is drawn, so a draw that raises leaves
    the page at the second pair of columns. *)
Definition page (clicked : bool) (topic style : string) (i j : nat)
    (s0 : session_state) : session_state * list widget * outcome unit :=
  let s := render_generate_button clicked s0 in
  let top :=
    ([Columns 2;
      In_column 1 (Button "Generate text" "primary" (Generate_text topic style));
      Placeholder]
     ++ (if Str.truthy (text_error s) then [Error_banner (text_error s)] else []))%list in
  if Str.truthy (post s) then
    let middle :=
      (top ++ [Markdown "---"; Text_area "Post" (post s) 200; Columns 2])%list in
    match regenerate_args (feeling_lucky s) topic style i j with
    | Raised e => (s, middle, Raised e)
    | Returned (t, y) =>
        (s,
         (middle
          ++ [In_column 1 (Button "Regenerate text" "secondary" (Generate_text t y))]
          ++ (if negb (Str.truthy (image s)) then
                [Button "Generate image" "primary" (Generate_image (post s))]
              else
                [Picture (image s);
                 Button "Regenerate image" "secondary" (Generate_image (post s))])
          ++ [Placeholder]
          ++ (if Str.truthy (image_error s) then [Error_banner (image_error s)] else [])
          ++ [Markdown "---"])%list,
         Returned tt)
    end
  else (s, top, Returned tt).

(** The three parts of what [page] gives. *)
Definition page_session (clicked : bool) (topic style : string) (i j : nat)
    (s0 : session_state) : session_state :=
  fst (fst (page clicked topic style i j s0)).

Definition page_widgets (clicked : bool) (topic style : string) (i j : nat)
    (s0 : session_state) : list widget :=
  snd (fst (page clicked topic style i j s0)).

Definition page_result (clicked : bool) (topic style : string) (i j : nat)
    (s0 : session_state) : outcome unit :=
  snd (page clicked topic style i j s0).

(** The callback behind a widget, if it is a button, also inside a column. *)
Fixpoint callback_of (w : widget) : option action :=
  match w with
  | Button _ _ a => Some a
  | In_column _ w' => callback_of w'
  | _ => None
  end.

(** The callbacks a page offers, in the order of its buttons. *)
Fixpoint offered (ws : list widget) : list action :=
  match ws with
  | [] => []
  | w :: ws' =>
      match callback_of w with
      | Some a => a :: offered ws'
      | None => offered ws'
      end
  end.

(** The messages of the error banners of a page. *)
Fixpoint banners (ws : list widget) : list string :=
  match ws with
  | [] => []
  | Error_banner m :: ws' => m :: banners ws'
  | _ :: ws' => banners ws'
  end.

(** The values of the text areas of a page. *)
Fixpoint shown_posts (ws : list widget) : list string :=
  match ws with
  | [] => []
  | Text_area _ v _ :: ws' => v :: shown_posts ws'
  | _ :: ws' => shown_posts ws'
  end.

Definition is_generate_image (a : action) : bool :=
  match a with
  | Generate_image _ => true
  | _ => false
  end.

(** ** More examples *)

(** The session after a call was rejected at the limit. *)
Definition rejected : world unit :=
  final (perform obliging (Generate_text "Streams" "") at_limit).

(** Six generation calls from a new session: the last one is rejected. *)
Definition six_calls : list action :=
  (five_calls ++ [Generate_text "Streams" ""])%list.

(** A completion of white space and double quotes only. *)
Definition blank_reply : string :=
  " " ++ String Str.DQUOTE (String Str.DQUOTE "  ").

Definition blank : Openai unit :=
  canned (Returned false) (Returned blank_reply) (Returned "never asked").

(** The process after the topics were loaded. *)
Definition topics_loaded : process unit string :=
  mkProcess tt
    (<["snowflake_features" :=
         [mkRow "Search Optimization" ["GA"]; mkRow "Time Travel" ["GA"]]]> ∅)
    ["snowflake_features"].

(** The process after both catalogs were loaded. *)
Definition both_loaded : process unit string :=
  mkProcess tt
    (<["style" := [mkRow "witty" []; mkRow "formal" []]]>
       (<["snowflake_features" :=
            [mkRow "Search Optimization" ["GA"]; mkRow "Time Travel" ["GA"]]]> ∅))
    ["snowflake_features"; "style"].

(** * Properties *)

(** ** The paths of the two callbacks *)

Section Paths.

Context {W : Type} (openai : Openai W).

Lemma generate_text_path (topic style : string) (w : world W) :
  text_path openai topic style w (generate_text openai topic style w).
Proof.
destruct w as [s x0 lg].
cbv [generate_text bind read assign ret logging_info openai_moderate
     openai_complete invoke session remote logged].
destruct (Z.leb_spec 5 (n_requests s)) as [Hn | Hn].
- now apply text_throttled.
- destruct topic as [| c topic'].
  + now apply text_no_topic.
  + cbn [Str.truthy negb].
    set (topic := String c topic') in *.
    assert (Ht : topic <> "") by (subst topic; discriminate).
    destruct (moderate openai (text_prompt topic style) x0)
      as [[[|] | e] x] eqn:Hm.
    * now apply (text_flagged openai topic style (mkWorld s x0 lg) x).
    * destruct (complete openai (text_prompt topic style) None None x)
        as [[reply | e] y] eqn:Hc.
      -- now apply (text_done openai topic style (mkWorld s x0 lg) x reply y).
      -- now apply (text_completion_failed openai topic style (mkWorld s x0 lg) x e y).
    * now apply (text_moderation_failed openai topic style (mkWorld s x0 lg) e x).
Qed.

Lemma generate_image_path (prompt : string) (w : world W) :
  image_path openai prompt w (generate_image openai prompt w).
Proof.
destruct w as [s x0 lg].
cbv [generate_image bind read assign ret logging_info openai_image
     openai_complete invoke session remote logged].
destruct (Z.leb_spec 5 (n_requests s)) as [Hn | Hn].
- now apply image_throttled.
- destruct (complete openai (processing_prompt prompt) (Some (1 # 2)%Q)
              (Some 200) x0) as [[reply | e] x] eqn:Hc.
  + destruct (image_of openai (first_sentence reply) x) as [[img | e] y] eqn:Hi.
    * now apply (image_done openai prompt (mkWorld s x0 lg) reply x img y).
    * now apply (image_failed openai prompt (mkWorld s x0 lg) reply x e y).
  + now apply (image_completion_failed openai prompt (mkWorld s x0 lg) e x).
Qed.

(** A script run makes no call and touches only [feeling_lucky]. *)
Lemma script_run_path (clicked : bool) (w : world W) :
  perform openai (Script_run clicked) w
  = mkRun (Returned tt)
      (mkWorld (set_feeling_lucky (negb clicked) (session w)) (remote w) (logged w))
      [].
Proof. reflexivity. Qed.

End Paths.

(** Case analysis of a run of a callback along its paths. *)
Ltac by_text_path openai topic style w :=
  let r := fresh "r" in
  let E := fresh "E" in
  let P := fresh "P" in
  remember (generate_text openai topic style w) as r eqn:E;
  assert (P : text_path openai topic style w r)
    by (subst r; apply generate_text_path);
  clear E; destruct P.

Ltac by_image_path openai prompt w :=
  let r := fresh "r" in
  let E := fresh "E" in
  let P := fresh "P" in
  remember (generate_image openai prompt w) as r eqn:E;
  assert (P : image_path openai prompt w r)
    by (subst r; apply generate_image_path);
  clear E; destruct P.

(** ** The throttle gate and the request counter *)

Section Counter.

Context {W : Type} (openai : Openai W).

Lemma gate_rejects (a : action) (w : world W) :
  is_callback a = true ->
  5 <= n_requests (session w) ->
  rate_limited w (perform openai a w).
Proof.
  intros Ha Hn. unfold rate_limited.
  destruct a as [topic style | prompt | clicked]; try discriminate; cbn [perform].
  - by_text_path openai topic style w; try lia.
    cbn. repeat split; auto; discriminate.
  - by_image_path openai prompt w; try lia.
    cbn. repeat split; auto; discriminate.
Qed.

(** The counter after a callback: 1 past the gate's limit; below it, one
    more exactly when the delivering operation was invoked. *)
Lemma counter_after (a : action) (w : world W) :
  is_callback a = true ->
  n_requests (session (final (perform openai a w)))
  = if 5 <=? n_requests (session w) then 1
    else if issued a (perform openai a w) then n_requests (session w) + 1
    else n_requests (session w).
Proof.
  intros Ha.
  destruct a as [topic style | prompt | clicked]; try discriminate;
    cbn [perform]; unfold issued.
  - by_text_path openai topic style w;
      (destruct (Z.leb_spec 5 (n_requests (session w))); [try lia | try lia]);
      reflexivity.
  - by_image_path openai prompt w;
      (destruct (Z.leb_spec 5 (n_requests (session w))); [try lia | try lia]);
      reflexivity.
Qed.

(** Past the limit nothing is asked of the client. *)
Lemma not_issued_at_limit (a : action) (w : world W) :
  5 <= n_requests (session w) ->
  issued a (perform openai a w) = false.
Proof.
  intros Hn. destruct a as [topic style | prompt | clicked].
  - destruct (gate_rejects (Generate_text topic style) w eq_refl Hn) as (_ & Hc & _).
    unfold issued. now rewrite Hc.
  - destruct (gate_rejects (Generate_image prompt) w eq_refl Hn) as (_ & Hc & _).
    unfold issued. now rewrite Hc.
  - reflexivity.
Qed.

Lemma successful_counts (a : action) (w : world W) :
  successful a (perform openai a w) = true ->
  n_requests (session w) < 5
  /\ n_requests (session (final (perform openai a w))) = n_requests (session w) + 1.
Proof.
  unfold successful. intros H.
  apply andb_prop in H as [_ Hi].
  assert (Ha : is_callback a = true).
  { destruct a; try reflexivity. discriminate Hi. }
  rewrite (counter_after a w Ha).
  destruct (Z.leb_spec 5 (n_requests (session w))) as [Hn | Hn].
  - rewrite (not_issued_at_limit a w Hn) in Hi. discriminate.
  - rewrite Hi. split; [assumption | reflexivity].
Qed.

Lemma script_run_counter (clicked : bool) (w : world W) :
  n_requests (session (final (perform openai (Script_run clicked) w)))
  = n_requests (session w).
Proof. reflexivity. Qed.

(** A session of successful calls counts them. *)
Lemma successful_session_counts (l : list action) :
  forall w : world W,
    all_successful openai l w = true ->
    n_requests (session (perform_all openai l w))
    = n_requests (session w) + Z.of_nat (length (List.filter is_callback l)).
Proof.
  induction l as [| a l IH]; intros w H.
  - cbn. lia.
  - cbn [all_successful] in H. apply andb_prop in H as [Ha Hl].
    cbn [perform_all List.filter]. rewrite (IH _ Hl).
    destruct a as [topic style | prompt | clicked]; cbn [is_callback negb orb] in *.
    + destruct (successful_counts _ _ Ha) as [_ ->]. cbn [length]. lia.
    + destruct (successful_counts _ _ Ha) as [_ ->]. cbn [length]. lia.
    + rewrite script_run_counter. lia.
Qed.

(** C1. A generation callback entered with [n_requests >= 5] sets a
    non-empty rate-limit message, puts [n_requests] back to 1 and returns
    without any call to the client; and in a new session, after exactly
    five generation calls, all of them successful (with any script runs in
    between), the sixth call is rejected in this way. *)
Theorem sixth_call_is_rate_limited (l : list action) (x : W) (a : action) (w : world W) :
  is_callback a = true ->
  (5 <= n_requests (session w) -> rate_limited w (perform openai a w))
  /\ (length (List.filter is_callback l) = 5%nat ->
      all_successful openai l (new_session x) = true ->
      n_requests (session (perform_all openai l (new_session x))) = 5
      /\ rate_limited (perform_all openai l (new_session x))
           (perform openai a (perform_all openai l (new_session x)))).
Proof.
  intros Ha. split.
  - now apply gate_rejects.
  - intros Hlen Hok.
    pose proof (successful_session_counts l (new_session x) Hok) as Hn.
    rewrite Hlen in Hn. cbn in Hn.
    split; [exact Hn |].
    apply gate_rejects; [assumption | lia].
Qed.

End Counter.

(** ** What the callbacks do to the session *)

Section Session.

Context {W : Type} (openai : Openai W).

(** C2, as the code has it. Past the gate's limit the counter is put to 1.
    Below it, a callback adds one to [n_requests] exactly when it invokes
    its delivering operation ([complete] for a post, [image] for an
    image), and it does so before the outcome of that operation is known:
    a successful call counts once; a call that is rejected for an empty
    topic, flagged, or that fails before the delivering operation does not
    count; a call whose delivering operation raises has been counted. *)
Theorem counter_incremented_before_delivery (a : action) (w : world W) :
  is_callback a = true ->
  (5 <= n_requests (session w) ->
   n_requests (session (final (perform openai a w))) = 1)
  /\ (n_requests (session w) < 5 ->
      n_requests (session (final (perform openai a w)))
      = if issued a (perform openai a w) then n_requests (session w) + 1
        else n_requests (session w))
  /\ (successful a (perform openai a w) = true ->
      n_requests (session (final (perform openai a w))) = n_requests (session w) + 1)
  /\ (n_requests (session w) < 5 ->
      returned (result (perform openai a w)) = false ->
      issued a (perform openai a w) = true ->
      n_requests (session (final (perform openai a w))) = n_requests (session w) + 1).
Proof.
  intros Ha. pose proof (counter_after openai a w Ha) as H.
  repeat split.
  - intros Hn. rewrite H. destruct (Z.leb_spec 5 (n_requests (session w))); [reflexivity | lia].
  - intros Hn. rewrite H. destruct (Z.leb_spec 5 (n_requests (session w))); [lia | reflexivity].
  - intros Hs. now destruct (successful_counts openai a w Hs).
  - intros Hn _ Hi. rewrite H, Hi.
    destruct (Z.leb_spec 5 (n_requests (session w))); [lia | reflexivity].
Qed.

(** C3, as the code has it. [generate_text] with an empty topic returns
    (it does not raise), asks nothing of the client and leaves a non-empty
    [text_error]; [post] is empty afterwards when the call passed the gate
    ([n_requests < 5]), and is left as it was when the gate rejected it. *)
Theorem empty_topic_is_an_error_state (style : string) (w : world W) :
  let r := generate_text openai "" style w in
  result r = Returned tt
  /\ calls r = []
  /\ remote (final r) = remote w
  /\ text_error (session (final r)) <> ""
  /\ (n_requests (session w) < 5 ->
      post (session (final r)) = ""
      /\ text_error (session (final r)) = "Please enter a topic")
  /\ (5 <= n_requests (session w) ->
      post (session (final r)) = post (session w)
      /\ text_error (session (final r)) = text_limit_message).
Proof.
  cbv zeta.
  by_text_path openai "" style w; try congruence;
    cbn; repeat split; auto; try discriminate; try lia.
Qed.

(** C5. In a run of [generate_text] the client is asked nothing, or
    [moderate] on the prompt alone, or [moderate] and then [complete] on
    the same prompt: [complete] comes only after [moderate] has returned
    unflagged. When [moderate] flags the prompt the callback stops with
    the error message: no [complete], the counter as it was, no post. *)
Theorem moderation_precedes_completion (topic style : string) (w : world W) :
  let r := generate_text openai topic style w in
  let prompt := text_prompt topic style in
  (calls r = []
   \/ calls r = [Moderate prompt]
   \/ calls r = [Moderate prompt; Complete prompt None None])
  /\ (existsb is_complete (calls r) = true ->
      exists x, moderate openai prompt (remote w) = (Returned false, x))
  /\ (forall x,
         n_requests (session w) < 5 ->
         topic <> "" ->
         moderate openai prompt (remote w) = (Returned true, x) ->
         result r = Returned tt
         /\ calls r = [Moderate prompt]
         /\ existsb is_complete (calls r) = false
         /\ text_error (session (final r)) = "Input flagged as inappropriate."
         /\ n_requests (session (final r)) = n_requests (session w)
         /\ post (session (final r)) = "").
Proof.
  cbv zeta.
  by_text_path openai topic style w; cbn [result final calls session];
    (split; [auto | split]).
  all: try (intros Hc; cbn in Hc; discriminate Hc).
  all: try (intros _; eexists; eassumption).
  all: intros x' Hn Ht Hm; try lia; try congruence.
  cbn. repeat split; auto.
Qed.

(** C9. Entered with [n_requests < 5], [generate_text] starts by putting
    [post], [image] and [text_error] to the empty string: the run is the
    one from the cleared session, [image] is empty afterwards and [post]
    is empty unless the call was successful. So a call rejected for an
    empty topic erases the post and the image, while a call rejected by
    the gate leaves them as they were. *)
Theorem text_outputs_cleared_past_the_gate (topic style : string) (w : world W) :
  let r := generate_text openai topic style w in
  (n_requests (session w) < 5 ->
   r = generate_text openai topic style (with_session (cleared (session w)) w)
   /\ image (session (final r)) = ""
   /\ (successful (Generate_text topic style) r = false ->
       post (session (final r)) = ""))
  /\ (n_requests (session w) < 5 -> topic = "" ->
      post (session (final r)) = ""
      /\ image (session (final r)) = ""
      /\ text_error (session (final r)) = "Please enter a topic")
  /\ (5 <= n_requests (session w) ->
      post (session (final r)) = post (session w)
      /\ image (session (final r)) = image (session w)).
Proof.
  cbv zeta. split; [| split].
  - intros Hn. split; [| split].
    + destruct w as [s x lg]. cbn [session] in Hn.
      cbv [generate_text with_session bind read session remote logged].
      change (n_requests (cleared s)) with (n_requests s).
      destruct (Z.leb_spec 5 (n_requests s)); [lia | reflexivity].
    + by_text_path openai topic style w; try lia; reflexivity.
    + unfold successful, issued.
      by_text_path openai topic style w; try lia; try reflexivity.
      cbn. discriminate.
  - intros Hn Ht.
    by_text_path openai topic style w; try lia; try congruence.
    repeat split.
  - intros Hn.
    by_text_path openai topic style w; try lia.
    split; reflexivity.
Qed.

(** No action assigns [image_error]. *)
Lemma image_error_untouched (a : action) (w : world W) :
  image_error (session (final (perform openai a w))) = image_error (session w).
Proof.
  destruct a as [topic style | prompt | clicked]; cbn [perform].
  - by_text_path openai topic style w; reflexivity.
  - by_image_path openai prompt w; reflexivity.
  - reflexivity.
Qed.

Lemma image_error_untouched_all (l : list action) :
  forall w : world W,
    image_error (session (perform_all openai l w)) = image_error (session w).
Proof.
  induction l as [| a l IH]; intros w; cbn [perform_all].
  - reflexivity.
  - rewrite IH. apply image_error_untouched.
Qed.

(** C10. [image_error] is created empty and no callback or script run
    assigns it: every action leaves it as it was, so it is empty all
    through a session; and the gate of [generate_image] writes its
    message into [text_error]. *)
Theorem image_error_stays_empty (l : list action) (x : W) (a : action)
    (prompt : string) (w : world W) :
  image_error (configure_state None) = ""
  /\ image_error (session (final (perform openai a w))) = image_error (session w)
  /\ image_error (session (perform_all openai l (new_session x))) = ""
  /\ (5 <= n_requests (session w) ->
      text_error (session (final (generate_image openai prompt w))) = image_limit_message
      /\ image_error (session (final (generate_image openai prompt w)))
         = image_error (session w)).
Proof.
  split; [reflexivity |].
  split; [apply image_error_untouched |].
  split; [now rewrite image_error_untouched_all |].
  intros Hn. by_image_path openai prompt w; try lia. split; reflexivity.
Qed.

End Session.

(** ** The prompt of [generate_text] *)

Section Prompt.

Context {W : Type} (openai : Openai W).

(** C4, as the code has it. The prompt is the fixed template around the
    topic, with the style clause (the style and one space) when the style
    is non-empty and without it otherwise; the template has one more space
    before [LinkedIn] than the specification words it, and a colon, two
    line feeds and a space before the hashtag sentence. It is the text
    that [generate_text] submits to the client. *)
Theorem text_prompt_template (topic style : string) (w : world W) :
  text_prompt topic style
  = "Write a " ++ (if Str.truthy style then style ++ " " else "")
      ++ " LinkedIn Post about the Snowflake data platform feature " ++ topic
      ++ String ":" (String Str.LF (String Str.LF
           " include the hashtags datasuperhero and masteringsnowflake"))
  /\ text_prompt topic ""
     = "Write a  LinkedIn Post about the Snowflake data platform feature " ++ topic
         ++ String ":" (String Str.LF (String Str.LF
              " include the hashtags datasuperhero and masteringsnowflake"))
  /\ text_prompt "Search Optimization" "witty"
     = "Write a witty  LinkedIn Post about the Snowflake data platform feature Search Optimization"
         ++ String ":" (String Str.LF (String Str.LF
              " include the hashtags datasuperhero and masteringsnowflake"))
  /\ (forall c, In c (calls (generate_text openai topic style w)) ->
      c = Moderate (text_prompt topic style)
      \/ c = Complete (text_prompt topic style) None None).
Proof.
  repeat split; try reflexivity.
  intros c Hc.
  by_text_path openai topic style w; cbn in Hc; intuition auto.
Qed.

End Prompt.

(** ** Removing the hashtags *)

Section Hashtags.

Import Re.

Lemma run_prefix_after_run (s : string) : run_prefix s ++ after_run s = s.
Proof.
  induction s as [| c s IH]; cbn; [reflexivity |].
  destruct (word_char c); [| reflexivity].
  change (String c (run_prefix s ++ after_run s) = String c s).
  now rewrite IH.
Qed.

Lemma length_run_prefix (s : string) : String.length (run_prefix s) = word_run s.
Proof.
  induction s as [| c s IH]; cbn; [reflexivity |].
  destruct (word_char c); cbn; [now rewrite IH | reflexivity].
Qed.

Lemma word_run_run_prefix (s : string) : word_run (run_prefix s) = word_run s.
Proof.
  induction s as [| c s IH]; cbn; [reflexivity |].
  destruct (word_char c) eqn:Hc; cbn; [now rewrite Hc, IH | reflexivity].
Qed.

Lemma word_run_after_run (s : string) : word_run (after_run s) = O.
Proof.
  induction s as [| c s IH]; cbn; [reflexivity |].
  destruct (word_char c) eqn:Hc; cbn; [assumption | now rewrite Hc].
Qed.

Lemma length_after_run (s : string) :
  (String.length (after_run s) <= String.length s)%nat.
Proof.
  induction s as [| c s IH]; cbn; [lia |].
  destruct (word_char c); cbn; lia.
Qed.

(** Dropping the rest of a match brings the scan to what follows it. *)
Lemma sub_scan_run (s : string) : sub_scan (word_run s) s = sub_scan O (after_run s).
Proof.
  induction s as [| c s IH]; cbn [word_run after_run]; [reflexivity |].
  destruct (word_char c); [cbn [sub_scan]; exact IH | reflexivity].
Qed.

(** The two equations of the substitution. *)
Lemma sub_hashtags_match (c : ascii) (s : string) (k : nat) :
  match_at (String c s) = Some k ->
  c = HASH /\ word_run s <> O /\ k = S (word_run s)
  /\ sub_hashtags (String c s) = sub_hashtags (after_run s).
Proof.
  unfold sub_hashtags. cbn [sub_scan]. unfold match_at.
  destruct (Ascii.eqb_spec c HASH) as [-> | Hc]; [| discriminate].
  destruct (word_run s) as [| j] eqn:Hr; [discriminate |].
  intros [= <-]. rewrite <- Hr, sub_scan_run. repeat split; auto. now rewrite Hr.
Qed.

Lemma sub_hashtags_copy (c : ascii) (s : string) :
  match_at (String c s) = None ->
  sub_hashtags (String c s) = String c (sub_hashtags s).
Proof.
  unfold sub_hashtags. cbn [sub_scan]. now intros ->.
Qed.

Lemma match_at_none (c : ascii) (s : string) :
  match_at (String c s) = None <-> (c <> HASH \/ word_run s = O).
Proof.
  unfold match_at. destruct (Ascii.eqb_spec c HASH) as [-> | Hc].
  - destruct (word_run s); split; intros H; auto; try discriminate.
    destruct H; congruence.
  - split; auto.
Qed.

(** Induction on strings by length, for a scan that jumps over a match. *)
Lemma string_length_ind (P : string -> Prop) :
  (forall s, (forall t, (String.length t < String.length s)%nat -> P t) -> P s) ->
  forall s, P s.
Proof.
  intros step s.
  assert (H : forall n t, (String.length t < n)%nat -> P t).
  { induction n as [| n IH]; intros t Ht; [lia |].
    apply step. intros u Hu. apply IH. lia. }
  apply (H (S (String.length s))). lia.
Qed.

(** What is left does not begin inside a word if the text did not. *)
Lemma sub_hashtags_no_word_head (s : string) :
  word_run s = O -> word_run (sub_hashtags s) = O.
Proof.
  induction s as [s IH] using string_length_ind. intros Hs.
  destruct s as [| c s]; [reflexivity |].
  destruct (match_at (String c s)) as [k |] eqn:Hm.
  - destruct (sub_hashtags_match c s k Hm) as (_ & _ & _ & ->).
    apply IH; [| apply word_run_after_run].
    pose proof (length_after_run s). cbn. lia.
  - rewrite (sub_hashtags_copy c s Hm). cbn in *.
    destruct (word_char c); [discriminate | reflexivity].
Qed.

(** Nothing that matches the pattern is left. *)
Lemma search_sub_hashtags (s : string) : search (sub_hashtags s) = false.
Proof.
  induction s as [s IH] using string_length_ind.
  destruct s as [| c s]; [reflexivity |].
  destruct (match_at (String c s)) as [k |] eqn:Hm.
  - destruct (sub_hashtags_match c s k Hm) as (_ & _ & _ & ->).
    apply IH. pose proof (length_after_run s). cbn. lia.
  - rewrite (sub_hashtags_copy c s Hm). cbn [search].
    assert (Hn : match_at (String c (sub_hashtags s)) = None).
    { apply match_at_none. apply match_at_none in Hm as [Hc | Hr]; [now left |].
      right. now apply sub_hashtags_no_word_head. }
    rewrite Hn. apply IH. cbn. lia.
Qed.

Lemma fullmatch_hash_run (s : string) :
  word_run s <> O -> fullmatch (String HASH (run_prefix s)) = true.
Proof.
  intros Hr. unfold fullmatch, match_at.
  rewrite Ascii.eqb_refl, word_run_run_prefix.
  destruct (word_run s) as [| j] eqn:E; [congruence |].
  cbn [String.length]. rewrite length_run_prefix, E. apply Nat.eqb_refl.
Qed.

Lemma removes_sub_hashtags (s : string) : removes s (sub_hashtags s).
Proof.
  induction s as [s IH] using string_length_ind.
  destruct s as [| c s]; [constructor |].
  destruct (match_at (String c s)) as [k |] eqn:Hm.
  - destruct (sub_hashtags_match c s k Hm) as (-> & Hr & _ & ->).
    rewrite <- (run_prefix_after_run s) at 1.
    change (String HASH (run_prefix s ++ after_run s))
      with (String HASH (run_prefix s) ++ after_run s).
    apply removes_match.
    + now apply fullmatch_hash_run.
    + apply word_run_after_run.
    + apply IH. pose proof (length_after_run s). cbn. lia.
  - rewrite (sub_hashtags_copy c s Hm). apply removes_keep; [assumption |].
    apply IH. cbn. lia.
Qed.

(** The text before the first full stop, and the rest. *)
Lemma split_0_segment (s : string) :
  (forall i, String.get i (Str.split_0 "." s) <> Some "."%char)
  /\ (s = Str.split_0 "." s
      \/ exists rest, s = Str.split_0 "." s ++ String "." rest).
Proof.
  induction s as [| c s [IH1 IH2]]; cbn [Str.split_0].
  - split; [intros i; destruct i; discriminate | now left].
  - destruct (Ascii.eqb_spec c "."%char) as [-> | Hc].
    + split; [intros i; destruct i; discriminate |].
      right. now exists s.
    + split.
      * intros [| i]; cbn; [congruence | apply IH1].
      * destruct IH2 as [IH2 | [rest IH2]].
        -- left. now rewrite <- IH2.
        -- right. exists rest.
           change (String c s
                   = String c (Str.split_0 "." s ++ String "." rest)).
           now rewrite <- IH2.
Qed.

End Hashtags.

(** ** The prompts of [generate_image] *)

Section ImagePrompt.

Context {W : Type} (openai : Openai W).

(** C6, as the code has it. Past the gate, [generate_image] first asks
    for a completion of the fixed instruction around the post text without
    its hashtags: every match of the pattern is left out whole and
    everything else is kept, so that nothing matching the pattern is left.
    The reply is then stripped of surrounding white space, loses its double
    quotes, is cut before its first full stop and gets a full stop
    appended; that text is what the image operation receives. *)
Theorem image_prompt_pipeline (prompt : string) (w : world W) :
  n_requests (session w) < 5 ->
  let r := generate_image openai prompt w in
  let request :=
    Complete (processing_prompt prompt) (Some (1 # 2)%Q) (Some 200) in
  removes prompt (Re.sub_hashtags prompt)
  /\ Re.search (Re.sub_hashtags prompt) = false
  /\ processing_prompt prompt
     = "In less than 300 words create a detailed but brief description of an image that captures the essence of the following text:"
         ++ String Str.LF (Re.sub_hashtags prompt ++ String Str.LF (String Str.LF ""))
  /\ (exists rest, calls r = request :: rest)
  /\ (forall reply x,
         complete openai (processing_prompt prompt) (Some (1 # 2)%Q) (Some 200) (remote w)
         = (Returned reply, x) ->
         let segment := Str.split_0 "." (Str.remove Str.DQUOTE (Str.strip reply)) in
         calls r = [request; Image (segment ++ ".")]
         /\ (forall i, String.get i segment <> Some "."%char)
         /\ (Str.remove Str.DQUOTE (Str.strip reply) = segment
             \/ exists rest,
                  Str.remove Str.DQUOTE (Str.strip reply) = segment ++ String "." rest)).
Proof.
  intros Hn. cbv zeta.
  split; [apply removes_sub_hashtags |].
  split; [apply search_sub_hashtags |].
  split; [reflexivity |].
  split.
  - by_image_path openai prompt w; try lia; eauto.
  - intros reply x Hc.
    split; [| apply split_0_segment].
    by_image_path openai prompt w; try lia; try congruence;
      match goal with
      | H : complete _ _ _ _ _ = (Returned _, _) |- _ =>
          rewrite Hc in H; injection H as <- <-
      end; reflexivity.
Qed.

End ImagePrompt.

(** ** The catalog loader *)

Section Memo.

Context {D V : Type} (collect : string -> D -> outcome (list (Row V)) * D).

(** C7, as the code has it. For every table, a call of the loader does one
    of three things. If the table is in the cache, it returns the first cell
    of every cached row and sends no query. If it is not and the query
    returns, it returns the first cell of every row of the answer, having
    sent that one query, and a second call returns the same column and
    sends none. If it is not and the query raises, the call raises the
    same, nothing is cached, and a second call sends the query again. *)
Theorem loader_caches_what_returns (table_name : string) (p : process D V) :
  (forall rows,
      cache p !! table_name = Some rows ->
      load_column collect table_name p = (Returned (map row_0 rows), p))
  /\ (forall rows d,
         cache p !! table_name = None ->
         collect table_name (database p) = (Returned rows, d) ->
         let p1 := mkProcess d (<[table_name := rows]> (cache p))
                     (queries p ++ [table_name]) in
         load_column collect table_name p = (Returned (map row_0 rows), p1)
         /\ load_column collect table_name p1 = (Returned (map row_0 rows), p1))
  /\ (forall e d,
         cache p !! table_name = None ->
         collect table_name (database p) = (Raised e, d) ->
         let p1 := mkProcess d (cache p) (queries p ++ [table_name]) in
         load_column collect table_name p = (Raised e, p1)
         /\ forall o p2,
              load_column collect table_name p1 = (o, p2) ->
              queries p2 = (queries p ++ [table_name; table_name])%list).
Proof.
  split; [| split].
  - intros rows Hl. unfold load_column, load_sf_data. now rewrite Hl.
  - intros rows d Hl Hc. cbv zeta. split.
    + unfold load_column, load_sf_data, load_sf_data_body. now rewrite Hl, Hc.
    + unfold load_column, load_sf_data. cbn [cache].
      now rewrite lookup_insert_eq.
  - intros e d Hl Hc. cbv zeta. split.
    + unfold load_column, load_sf_data, load_sf_data_body. now rewrite Hl, Hc.
    + intros o p2.
      unfold load_column, load_sf_data, load_sf_data_body. cbn [cache database queries].
      rewrite Hl.
      destruct (collect table_name d) as [[rows | e'] d'];
        intros [= <- <-]; cbn [queries]; now rewrite <- app_assoc.
Qed.

End Memo.

(** ** The arguments of [Regenerate text] *)

(** C8, on the code. With [feeling_lucky] the two arguments are drawn by
    [random.choice] from the selected topic and the selected style, which
    are strings: each argument is one character of the selection, not an
    entry of a catalog. Without it they are the selection itself. *)
Theorem regenerate_args_are_characters (lucky : bool) (topic style : string)
    (i j : nat) (t s : string) :
  regenerate_args lucky topic style i j = Returned (t, s) ->
  if lucky then
    exists c d,
      String.get i topic = Some c /\ String.get j style = Some d
      /\ t = String c "" /\ s = String d ""
  else t = topic /\ s = style.
Proof.
  unfold regenerate_args, random_choice. intros H. destruct lucky.
  - destruct (String.get i topic) as [c |]; [| discriminate].
    destruct (String.get j style) as [d |]; [| discriminate].
    injection H as <- <-. now exists c, d.
  - now injection H as <- <-.
Qed.

(** * Instances *)

Lemma sixth_call_is_rate_limited_witness :
  rate_limited at_limit (perform obliging (Generate_image "An earlier post") at_limit)
  /\ n_requests (session (perform_all obliging five_calls (new_session tt))) = 5
  /\ rate_limited (perform_all obliging five_calls (new_session tt))
       (perform obliging (Generate_text "Streams" "")
          (perform_all obliging five_calls (new_session tt))).
Proof.
  split.
  - refine (proj1 (sixth_call_is_rate_limited obliging five_calls tt
                     (Generate_image "An earlier post") at_limit eq_refl) _).
    cbn. lia.
  - exact (proj2 (sixth_call_is_rate_limited obliging five_calls tt
                    (Generate_text "Streams" "") at_limit eq_refl)
             eq_refl eq_refl).
Defined.

(** C2 as stated fails: a post whose completion raises, and an image whose
    image operation raises, are not successful and have been counted. *)
Lemma counted_though_failed_counterexample :
  successful (Generate_text "Search Optimization" "witty")
    (perform no_completion (Generate_text "Search Optimization" "witty") below_limit) = false
  /\ result (perform no_completion (Generate_text "Search Optimization" "witty") below_limit)
     = Raised "APIError"
  /\ n_requests (session (final
       (perform no_completion (Generate_text "Search Optimization" "witty") below_limit)))
     = n_requests (session below_limit) + 1
  /\ successful (Generate_image "An earlier post")
       (perform no_image (Generate_image "An earlier post") below_limit) = false
  /\ n_requests (session (final
       (perform no_image (Generate_image "An earlier post") below_limit)))
     = n_requests (session below_limit) + 1.
Proof. repeat split. Qed.

Lemma counter_incremented_before_delivery_witness :
  n_requests (session (final
    (perform obliging (Generate_text "Search Optimization" "witty") below_limit))) = 2 + 1
  /\ n_requests (session (final
       (perform no_completion (Generate_text "Search Optimization" "witty") below_limit)))
     = 2 + 1
  /\ n_requests (session (final
       (perform censor (Generate_text "Search Optimization" "witty") below_limit))) = 2
  /\ n_requests (session (final
       (perform obliging (Generate_text "Search Optimization" "witty") at_limit))) = 1.
Proof.
  pose proof (counter_incremented_before_delivery obliging
                (Generate_text "Search Optimization" "witty") below_limit eq_refl)
    as (_ & _ & Hdone & _).
  pose proof (counter_incremented_before_delivery no_completion
                (Generate_text "Search Optimization" "witty") below_limit eq_refl)
    as (_ & _ & _ & Hfailed).
  pose proof (counter_incremented_before_delivery censor
                (Generate_text "Search Optimization" "witty") below_limit eq_refl)
    as (_ & Hflagged & _).
  pose proof (counter_incremented_before_delivery obliging
                (Generate_text "Search Optimization" "witty") at_limit eq_refl)
    as (Hlimit & _).
  split; [exact (Hdone eq_refl) |].
  split; [refine (Hfailed _ eq_refl eq_refl); cbn; lia |].
  split; [refine (Hflagged _); cbn; lia |].
  refine (Hlimit _). cbn. lia.
Defined.

(** C3 as stated fails: at the limit an empty topic leaves the post. *)
Lemma empty_topic_keeps_post_counterexample :
  post (session (final (generate_text obliging "" "witty" at_limit))) = "An earlier post"
  /\ post (session (final (generate_text obliging "" "witty" at_limit))) <> "".
Proof. split; [reflexivity | discriminate]. Qed.

Lemma empty_topic_is_an_error_state_witness :
  post (session (final (generate_text obliging "" "witty" below_limit))) = ""
  /\ post (session (final (generate_text obliging "" "witty" at_limit)))
     = "An earlier post".
Proof.
  pose proof (empty_topic_is_an_error_state obliging "witty" below_limit)
    as (_ & _ & _ & _ & Hbelow & _).
  pose proof (empty_topic_is_an_error_state obliging "witty" at_limit)
    as (_ & _ & _ & _ & _ & Hat).
  split.
  - refine (proj1 (Hbelow _)). cbn. lia.
  - refine (proj1 (Hat _)). cbn. lia.
Defined.

(** C4 as stated fails: the prompt is not the string of the
    specification, with or without a style. *)
Lemma text_prompt_counterexample :
  text_prompt "Search Optimization" "" <> spec_text_prompt "Search Optimization" ""
  /\ text_prompt "Search Optimization" "witty"
     <> spec_text_prompt "Search Optimization" "witty".
Proof. split; discriminate. Qed.

Lemma text_prompt_template_witness :
  Moderate (text_prompt "Search Optimization" "witty")
  = Moderate (text_prompt "Search Optimization" "witty")
  \/ Moderate (text_prompt "Search Optimization" "witty")
     = Complete (text_prompt "Search Optimization" "witty") None None.
Proof.
  pose proof (text_prompt_template obliging "Search Optimization" "witty" below_limit)
    as (_ & _ & _ & Hcalls).
  refine (Hcalls (Moderate (text_prompt "Search Optimization" "witty")) _).
  left. reflexivity.
Defined.

Lemma moderation_precedes_completion_witness :
  (exists x, moderate obliging (text_prompt "Search Optimization" "witty") tt
             = (Returned false, x))
  /\ calls (generate_text censor "Search Optimization" "witty" below_limit)
     = [Moderate (text_prompt "Search Optimization" "witty")]
  /\ n_requests (session (final
       (generate_text censor "Search Optimization" "witty" below_limit))) = 2
  /\ post (session (final
       (generate_text censor "Search Optimization" "witty" below_limit))) = "".
Proof.
  pose proof (moderation_precedes_completion obliging "Search Optimization" "witty"
                below_limit) as (_ & Hcompleted & _).
  pose proof (moderation_precedes_completion censor "Search Optimization" "witty"
                below_limit) as (_ & _ & Hflagged).
  split; [exact (Hcompleted eq_refl) |].
  assert (Hn : n_requests (session below_limit) < 5) by (cbn; lia).
  assert (Ht : "Search Optimization" <> "") by discriminate.
  destruct (Hflagged tt Hn Ht eq_refl) as (_ & Hc & _ & _ & Hk & Hp).
  split; [exact Hc |]. split; [exact Hk | exact Hp].
Defined.

(** C6 as stated fails: what the image operation receives is not the first
    segment of the reply, nor that segment with its full stop. *)
Lemma image_prompt_counterexample :
  calls (generate_image quoting "A fine post. #datasuperhero" below_limit)
  = [Complete (processing_prompt "A fine post. #datasuperhero") (Some (1 # 2)%Q) (Some 200);
     Image "A lighthouse."]
  /\ Str.split_0 "." quoted_reply
     = " " ++ String Str.DQUOTE "A lighthouse" ++ String Str.DQUOTE ""
  /\ "A lighthouse." <> Str.split_0 "." quoted_reply
  /\ "A lighthouse." <> Str.split_0 "." quoted_reply ++ ".".
Proof. repeat split; discriminate. Qed.

Lemma image_prompt_pipeline_witness :
  Re.sub_hashtags "A fine post. #datasuperhero ##x #" = "A fine post.  # #"
  /\ Re.search (Re.sub_hashtags "A fine post. #datasuperhero ##x #") = false
  /\ calls (generate_image quoting "A fine post. #datasuperhero ##x #" below_limit)
     = [Complete (processing_prompt "A fine post. #datasuperhero ##x #")
          (Some (1 # 2)%Q) (Some 200);
        Image ("A lighthouse" ++ ".")].
Proof.
  split; [reflexivity |].
  pose proof (image_prompt_pipeline quoting "A fine post. #datasuperhero ##x #"
                below_limit ltac:(cbn; lia)) as (_ & Hs & _ & _ & Hr).
  split; [exact Hs |].
  exact (proj1 (Hr quoted_reply tt eq_refl)).
Defined.

(** C7 as stated fails: two calls for a table that the database does not
    have send two queries, and neither returns. *)
Lemma failing_table_is_queried_twice_counterexample :
  load_column catalogs "missing" started
  = (Raised "SnowparkSQLException", mkProcess tt ∅ ["missing"])
  /\ load_column catalogs "missing" (mkProcess tt ∅ ["missing"])
     = (Raised "SnowparkSQLException", mkProcess tt ∅ ["missing"; "missing"]).
Proof. split; reflexivity. Qed.

Lemma loader_caches_what_returns_witness :
  (load_column catalogs "style" started
   = (Returned ["witty"; "formal"],
      mkProcess tt (<["style" := [mkRow "witty" []; mkRow "formal" []]]> ∅) ["style"])
   /\ load_column catalogs "style"
        (mkProcess tt (<["style" := [mkRow "witty" []; mkRow "formal" []]]> ∅) ["style"])
      = (Returned ["witty"; "formal"],
         mkProcess tt (<["style" := [mkRow "witty" []; mkRow "formal" []]]> ∅) ["style"]))
  /\ load_column catalogs "missing" started
     = (Raised "SnowparkSQLException", mkProcess tt ∅ ["missing"]).
Proof.
  pose proof (loader_caches_what_returns catalogs "style" started) as (_ & Hmiss & _).
  pose proof (loader_caches_what_returns catalogs "missing" started) as (_ & _ & Hfail).
  split.
  - exact (Hmiss [mkRow "witty" []; mkRow "formal" []] tt eq_refl eq_refl).
  - exact (proj1 (Hfail "SnowparkSQLException" tt eq_refl eq_refl)).
Defined.

(** The failing input of C8: one entry in each catalog, both selected. *)
Lemma regenerate_args_are_characters_witness :
  regenerate_args true "Search Optimization" "witty" 0 0 = Returned ("S", "w")
  /\ (exists c d,
        String.get 0 "Search Optimization" = Some c /\ String.get 0 "witty" = Some d
        /\ "S" = String c "" /\ "w" = String d "")
  /\ ~ In "S" ["Search Optimization"]
  /\ ~ In "w" ["witty"].
Proof.
  split; [reflexivity |].
  split.
  - exact (regenerate_args_are_characters true "Search Optimization" "witty" 0 0
             "S" "w" eq_refl).
  - split; intros [H | []]; discriminate H.
Defined.

Lemma text_outputs_cleared_past_the_gate_witness :
  (post (session (final (generate_text obliging "" "witty" below_limit))) = ""
   /\ image (session (final (generate_text obliging "" "witty" below_limit))) = ""
   /\ text_error (session (final (generate_text obliging "" "witty" below_limit)))
      = "Please enter a topic")
  /\ (post (session (final (generate_text obliging "" "witty" at_limit)))
      = "An earlier post"
      /\ image (session (final (generate_text obliging "" "witty" at_limit)))
         = "https://images.example/0.png").
Proof.
  pose proof (text_outputs_cleared_past_the_gate obliging "" "witty" below_limit)
    as (_ & Hbelow & _).
  pose proof (text_outputs_cleared_past_the_gate obliging "" "witty" at_limit)
    as (_ & _ & Hat).
  split.
  - refine (Hbelow _ eq_refl). cbn. lia.
  - refine (Hat _). cbn. lia.
Defined.

Lemma image_error_stays_empty_witness :
  text_error (session (final (generate_image obliging "An earlier post" at_limit)))
  = image_limit_message
  /\ image_error (session (final (generate_image obliging "An earlier post" at_limit))) = "".
Proof.
  pose proof (image_error_stays_empty obliging five_calls tt (Script_run true)
                "An earlier post" at_limit) as (_ & _ & _ & Hgate).
  refine (Hgate _). cbn. lia.
Defined.

(** * More on the callbacks *)

Section Bounds.

Context {W : Type} (openai : Openai W).

(** One action keeps the counter between 0 and the limit. *)
Lemma counter_bounds_step (a : action) (w : world W) :
  0 <= n_requests (session w) <= 5 ->
  0 <= n_requests (session (final (perform openai a w))) <= 5.
Proof.
  intros Hw.
  destruct (is_callback a) eqn:Ha.
  - rewrite (counter_after openai a w Ha).
    destruct (Z.leb_spec 5 (n_requests (session w))); [lia |].
    destruct (issued a (perform openai a w)); lia.
  - destruct a; try discriminate. now rewrite script_run_counter.
Qed.

Lemma counter_bounds_all (l : list action) :
  forall w : world W,
    0 <= n_requests (session w) <= 5 ->
    0 <= n_requests (session (perform_all openai l w)) <= 5.
Proof.
  induction l as [| a l IH]; intros w Hw; cbn [perform_all]; [assumption |].
  apply IH. now apply counter_bounds_step.
Qed.

(** X1. All through a session, whatever the client answers, the counter
    stays between 0 and 5: it never passes the limit of the gate. *)
Theorem counter_stays_within_limit (l : list action) (x : W) :
  0 <= n_requests (session (perform_all openai l (new_session x))) <= 5.
Proof.
  apply counter_bounds_all. cbn. lia.
Qed.

(** X2. The gate is soft: a rejected call leaves the counter at 1, so the
    call that follows it is let through, to the completion for an image and
    to the moderation for a post with a topic. *)
Theorem call_after_rejection_passes (a : action) (w : world W)
    (prompt topic style : string) :
  is_callback a = true ->
  5 <= n_requests (session w) ->
  topic <> "" ->
  n_requests (session (final (perform openai a w))) = 1
  /\ (exists rest,
        calls (generate_image openai prompt (final (perform openai a w)))
        = Complete (processing_prompt prompt) (Some (1 # 2)%Q) (Some 200) :: rest)
  /\ (exists rest,
        calls (generate_text openai topic style (final (perform openai a w)))
        = Moderate (text_prompt topic style) :: rest).
Proof.
  intros Ha Hn Ht.
  destruct (gate_rejects openai a w Ha Hn) as (_ & _ & _ & H1 & _).
  split; [exact H1 |].
  set (w1 := final (perform openai a w)) in *.
  split.
  - by_image_path openai prompt w1; try lia; eauto.
  - by_text_path openai topic style w1; try lia; try congruence; eauto.
Qed.

(** X3. Below the limit [generate_image] writes nothing but the counter and
    the image: the post, [text_error] and [feeling_lucky] are as before,
    whatever the client does, so a message left by an earlier call stays
    where it is; and the image changes only when the callback returns. *)
Theorem generate_image_frame (prompt : string) (w : world W) :
  n_requests (session w) < 5 ->
  let r := generate_image openai prompt w in
  post (session (final r)) = post (session w)
  /\ text_error (session (final r)) = text_error (session w)
  /\ feeling_lucky (session (final r)) = feeling_lucky (session w)
  /\ (returned (result r) = false -> image (session (final r)) = image (session w)).
Proof.
  intros Hn. cbv zeta.
  by_image_path openai prompt w; try lia; repeat split; try reflexivity;
    intros Hr; try reflexivity; discriminate Hr.
Qed.

(** X4. A run of [generate_text] that raises has passed the gate and the
    topic check and failed in the client. The earlier post and image are
    erased and [text_error] is empty, so no message tells of the failure.
    The counter tells which call failed: it is as before when [moderate]
    raised, and already one more when [complete] raised. Nothing else of
    the session has changed. *)
Theorem generate_text_failure_erases (topic style : string) (w : world W) :
  returned (result (generate_text openai topic style w)) = false ->
  let r := generate_text openai topic style w in
  n_requests (session w) < 5
  /\ topic <> ""
  /\ post (session (final r)) = ""
  /\ image (session (final r)) = ""
  /\ text_error (session (final r)) = ""
  /\ image_error (session (final r)) = image_error (session w)
  /\ feeling_lucky (session (final r)) = feeling_lucky (session w)
  /\ ((calls r = [Moderate (text_prompt topic style)]
       /\ n_requests (session (final r)) = n_requests (session w))
      \/ (calls r = [Moderate (text_prompt topic style);
                     Complete (text_prompt topic style) None None]
          /\ n_requests (session (final r)) = n_requests (session w) + 1)).
Proof.
  cbv zeta.
  by_text_path openai topic style w; cbn [result returned];
    intros Hr; try discriminate Hr;
    (do 7 (split; [first [assumption | reflexivity] |]));
    [left | right]; split; reflexivity.
Qed.

End Bounds.

(** ** Characters that never appear *)

Lemma char_in_remove (c : ascii) (s : string) : char_in c (Str.remove c s) = false.
Proof.
  induction s as [| d s IH]; cbn [Str.remove char_in]; [reflexivity |].
  destruct (Ascii.eqb d c) eqn:E; [exact IH |].
  cbn [char_in]. now rewrite E.
Qed.

Lemma char_in_split_0_sep (c : ascii) (s : string) : char_in c (Str.split_0 c s) = false.
Proof.
  induction s as [| d s IH]; cbn [Str.split_0 char_in]; [reflexivity |].
  destruct (Ascii.eqb d c) eqn:E; [reflexivity |].
  cbn [char_in]. now rewrite E.
Qed.

Lemma char_in_split_0 (c d : ascii) (s : string) :
  char_in c s = false -> char_in c (Str.split_0 d s) = false.
Proof.
  induction s as [| e s IH]; cbn [Str.split_0 char_in]; [reflexivity |].
  intros H. apply orb_false_iff in H as [He Hs].
  destruct (Ascii.eqb e d); [reflexivity |].
  cbn [char_in]. now rewrite He, IH.
Qed.

Section Characters.

Context {W : Type} (openai : Openai W).

Lemma post_without_quotes_step (a : action) (w : world W) :
  char_in Str.DQUOTE (post (session w)) = false ->
  char_in Str.DQUOTE (post (session (final (perform openai a w)))) = false.
Proof.
  intros Hw. destruct a as [topic style | prompt | clicked]; cbn [perform].
  - by_text_path openai topic style w; cbn [final session];
      try assumption; try reflexivity.
    apply char_in_remove.
  - by_image_path openai prompt w; cbn [final session]; assumption.
  - exact Hw.
Qed.

(** X5. All through a session the post holds no double quote: it is empty
    or a completion from which [generate_text] has taken every one out. *)
Theorem post_never_holds_a_quote (l : list action) (x : W) :
  char_in Str.DQUOTE (post (session (perform_all openai l (new_session x)))) = false.
Proof.
  assert (H : forall (k : list action) (w : world W),
             char_in Str.DQUOTE (post (session w)) = false ->
             char_in Str.DQUOTE (post (session (perform_all openai k w))) = false).
  { induction k as [| a k IH]; intros w Hw; cbn [perform_all]; [assumption |].
    apply IH. now apply post_without_quotes_step. }
  apply H. reflexivity.
Qed.

(** X6. What [generate_image] passes to the image operation is one
    sentence: a text with no full stop and no double quote in it, followed
    by a full stop. It is never empty, whatever the completion was. *)
Theorem image_request_is_one_sentence (prompt p : string) (w : world W) :
  In (Image p) (calls (generate_image openai prompt w)) ->
  p <> ""
  /\ exists segment,
       p = segment ++ "."
       /\ char_in "." segment = false
       /\ char_in Str.DQUOTE segment = false.
Proof.
  intros Hin.
  assert (Hp : exists reply, p = first_sentence reply).
  { by_image_path openai prompt w; cbn [calls In] in Hin;
      repeat match goal with
             | H : _ \/ _ |- _ => destruct H
             | H : False |- _ => destruct H
             | H : Complete _ _ _ = Image _ |- _ => discriminate H
             | H : Image _ = Image _ |- _ => injection H as <-
             end;
      eauto. }
  destruct Hp as [reply ->]. unfold first_sentence. split.
  - destruct (Str.split_0 "." (Str.clean reply)); discriminate.
  - exists (Str.split_0 "." (Str.clean reply)).
    split; [reflexivity |]. split.
    + apply char_in_split_0_sep.
    + apply char_in_split_0. apply char_in_remove.
Qed.

End Characters.

(** ** Removing the hashtags, again *)

Lemma sub_hashtags_fixes_clean_text (s : string) :
  Re.search s = false -> Re.sub_hashtags s = s.
Proof.
  induction s as [| c s IH]; [reflexivity |].
  cbn [Re.search].
  destruct (Re.match_at (String c s)) eqn:Hm; [discriminate |].
  intros Hs. rewrite (sub_hashtags_copy c s Hm). now rewrite IH.
Qed.

Lemma length_sub_hashtags (s : string) :
  (String.length (Re.sub_hashtags s) <= String.length s)%nat.
Proof.
  induction s as [s IH] using string_length_ind.
  destruct s as [| c s]; [cbn; lia |].
  destruct (Re.match_at (String c s)) as [k |] eqn:Hm.
  - destruct (sub_hashtags_match c s k Hm) as (_ & _ & _ & ->).
    pose proof (length_after_run s) as Ha.
    assert (Hl : (String.length (after_run s) < String.length (String c s))%nat)
      by (cbn; lia).
    specialize (IH _ Hl). cbn [String.length]. lia.
  - rewrite (sub_hashtags_copy c s Hm). cbn [String.length].
    assert (Hl : (String.length s < String.length (String c s))%nat) by (cbn; lia).
    specialize (IH _ Hl). lia.
Qed.

(** X7. Removing the hashtags changes nothing in a text without any, so
    doing it twice is doing it once; and it never makes a text longer. *)
Theorem sub_hashtags_idempotent (s : string) :
  Re.sub_hashtags (Re.sub_hashtags s) = Re.sub_hashtags s
  /\ (String.length (Re.sub_hashtags s) <= String.length s)%nat
  /\ (Re.search s = false <-> Re.sub_hashtags s = s).
Proof.
  split; [apply sub_hashtags_fixes_clean_text, search_sub_hashtags |].
  split; [apply length_sub_hashtags |].
  split; [apply sub_hashtags_fixes_clean_text |].
  intros H. rewrite <- H. apply search_sub_hashtags.
Qed.

(** ** The log *)

Section Log.

Context {W : Type} (openai : Openai W).

(** X8. An action appends at most one line to the log and leaves the
    earlier lines alone; and in a session the line of a rejected call
    always reports the counter at 5, since the counter never passes it. *)
Theorem log_only_grows (l : list action) (x : W) (a : action) :
  (exists lines,
     logged (final (perform openai a (perform_all openai l (new_session x))))
     = (logged (perform_all openai l (new_session x)) ++ lines)%list
     /\ (length lines <= 1)%nat)
  /\ (is_callback a = true ->
      5 <= n_requests (session (perform_all openai l (new_session x))) ->
      logged (final (perform openai a (perform_all openai l (new_session x))))
      = (logged (perform_all openai l (new_session x))
         ++ ["Session request limit reached: 5"])%list).
Proof.
  pose proof (counter_stays_within_limit openai l x) as Hb.
  set (w := perform_all openai l (new_session x)) in *.
  split.
  - destruct a as [topic style | prompt | clicked]; cbn [perform].
    + by_text_path openai topic style w; cbn [final logged];
        first [ exists []; rewrite app_nil_r; split; [reflexivity | cbn; lia]
              | eexists; split; [reflexivity | cbn; lia] ].
    + by_image_path openai prompt w; cbn [final logged];
        first [ exists []; rewrite app_nil_r; split; [reflexivity | cbn; lia]
              | eexists; split; [reflexivity | cbn; lia] ].
    + exists []. rewrite app_nil_r. split; [reflexivity | cbn; lia].
  - intros Ha Hn.
    assert (H5 : n_requests (session w) = 5) by lia.
    destruct a as [topic style | prompt | clicked]; try discriminate; cbn [perform].
    + by_text_path openai topic style w; try lia.
      cbn [final logged]. unfold limit_log. now rewrite H5.
    + by_image_path openai prompt w; try lia.
      cbn [final logged]. unfold limit_log. now rewrite H5.
Qed.

End Log.

(** ** The loader, again *)

Section Loads.

Context {D V : Type} (collect : string -> D -> outcome (list (Row V)) * D).

(** What a call of the loader does to the cache and to the queries. *)
Lemma load_sf_data_effect (table_name : string) (p p1 : process D V)
    (o : outcome (list (Row V))) :
  load_sf_data collect table_name p = (o, p1) ->
  match cache p !! table_name with
  | Some table => o = Returned table /\ p1 = p
  | None =>
      queries p1 = (queries p ++ [table_name])%list
      /\ match o with
         | Returned table => cache p1 = <[table_name := table]> (cache p)
         | Raised _ => cache p1 = cache p
         end
  end.
Proof.
  unfold load_sf_data, load_sf_data_body.
  destruct (cache p !! table_name) as [t |].
  - intros [= <- <-]. now split.
  - destruct (collect table_name (database p)) as [[t | e] d];
      intros [= <- <-]; now split.
Qed.

Lemma load_sf_data_keeps_entries (a b : string) (p p1 : process D V)
    (o : outcome (list (Row V))) (t : list (Row V)) :
  load_sf_data collect a p = (o, p1) ->
  cache p !! b = Some t ->
  cache p1 !! b = Some t.
Proof.
  intros H Hb. pose proof (load_sf_data_effect a p p1 o H) as E.
  destruct (cache p !! a) as [ta |] eqn:Ha.
  - destruct E as [_ ->]. exact Hb.
  - destruct E as [_ E]. destruct o as [table | e].
    + rewrite E. rewrite lookup_insert_ne; [exact Hb | congruence].
    + now rewrite E.
Qed.

Lemma load_sf_data_returned_is_cached (a : string) (p p1 : process D V)
    (df : list (Row V)) :
  load_sf_data collect a p = (Returned df, p1) ->
  cache p1 !! a = Some df.
Proof.
  intros H. pose proof (load_sf_data_effect a p p1 _ H) as E.
  destruct (cache p !! a) as [ta |] eqn:Ha.
  - destruct E as [[= ->] ->]. exact Ha.
  - destruct E as [_ ->]. apply lookup_insert_eq.
Qed.

Lemma load_column_returned (a : string) (p p1 : process D V) (col : list V) :
  load_column collect a p = (Returned col, p1) ->
  exists df, load_sf_data collect a p = (Returned df, p1) /\ col = map row_0 df.
Proof.
  unfold load_column.
  destruct (load_sf_data collect a p) as [[df | e] p'] eqn:H; intros [= <- <-].
  now exists df.
Qed.

Lemma load_column_hit (a : string) (p : process D V) (df : list (Row V)) :
  cache p !! a = Some df ->
  load_column collect a p = (Returned (map row_0 df), p).
Proof.
  intros H. unfold load_column, load_sf_data. now rewrite H.
Qed.

(** X9. A query that raises is not cached: the loader raises the same
    exception, the cache is as before, and the next call for that table
    sends the query again. *)
Theorem failed_load_is_retried (table_name e : string) (p p1 : process D V) :
  load_sf_data collect table_name p = (Raised e, p1) ->
  cache p1 = cache p
  /\ queries p1 = (queries p ++ [table_name])%list
  /\ (exists d, collect table_name (database p) = (Raised e, d))
  /\ (forall o p2,
         load_sf_data collect table_name p1 = (o, p2) ->
         queries p2 = (queries p ++ [table_name; table_name])%list).
Proof.
  intros H. pose proof (load_sf_data_effect table_name p p1 _ H) as E.
  destruct (cache p !! table_name) as [t |] eqn:Hl; [now destruct E |].
  destruct E as [Hq Hc].
  split; [exact Hc |]. split; [exact Hq |]. split.
  - unfold load_sf_data, load_sf_data_body in H. rewrite Hl in H.
    destruct (collect table_name (database p)) as [[t | e'] d]; [discriminate |].
    injection H as <- _. now exists d.
  - intros o p2 H2. pose proof (load_sf_data_effect table_name p1 p2 _ H2) as E2.
    rewrite Hc, Hl in E2. destruct E2 as [-> _]. rewrite Hq.
    now rewrite <- app_assoc.
Qed.

(** X10. The cache only gains entries: a call for one table leaves every
    entry that is there, also the one of that table, and touches no other
    table; and it sends one query at most. *)
Theorem cache_entries_are_kept (a b : string) (p p1 : process D V)
    (o : outcome (list (Row V))) :
  load_sf_data collect a p = (o, p1) ->
  (forall t, cache p !! b = Some t -> cache p1 !! b = Some t)
  /\ (b <> a -> cache p1 !! b = cache p !! b)
  /\ (queries p1 = queries p \/ queries p1 = (queries p ++ [a])%list).
Proof.
  intros H. split; [intros t; now apply (load_sf_data_keeps_entries a b p p1 o) |].
  pose proof (load_sf_data_effect a p p1 o H) as E.
  destruct (cache p !! a) as [ta |] eqn:Ha.
  - destruct E as [_ ->]. split; [reflexivity | now left].
  - destruct E as [Hq E]. split; [| now right].
    intros Hb. destruct o as [table | e']; rewrite E; [| reflexivity].
    now apply lookup_insert_ne.
Qed.

(** X11. Once a script run has loaded both catalogs, a later run gets the
    same two lists from the cache and sends no query; the first run of a
    process sends the two queries, topics first. *)
Theorem catalogs_are_loaded_once (p p1 : process D V) (sffeatures style : list V) :
  load_catalogs collect p = (Returned (sffeatures, style), p1) ->
  load_catalogs collect p1 = (Returned (sffeatures, style), p1)
  /\ (cache p = ∅ ->
      queries p1 = (queries p ++ ["snowflake_features"; "style"])%list).
Proof.
  unfold load_catalogs at 1.
  destruct (load_column collect "snowflake_features" p) as [[f | e] q] eqn:Hf;
    [| discriminate].
  destruct (load_column collect "style" q) as [[s | e] q'] eqn:Hs; [| discriminate].
  intros [= <- <- <-].
  destruct (load_column_returned _ _ _ _ Hf) as (df & Hdf & ->).
  destruct (load_column_returned _ _ _ _ Hs) as (ds & Hds & ->).
  pose proof (load_sf_data_returned_is_cached _ _ _ _ Hdf) as Cf.
  pose proof (load_sf_data_keeps_entries _ "snowflake_features" _ _ _ _ Hds Cf) as Cf'.
  pose proof (load_sf_data_returned_is_cached _ _ _ _ Hds) as Cs.
  split.
  - unfold load_catalogs.
    rewrite (load_column_hit _ _ _ Cf'), (load_column_hit _ _ _ Cs). reflexivity.
  - intros He.
    pose proof (load_sf_data_effect _ _ _ _ Hdf) as Ef.
    rewrite He, lookup_empty in Ef. destruct Ef as [Qf Ef].
    pose proof (load_sf_data_effect _ _ _ _ Hds) as Es.
    rewrite Ef, lookup_insert_ne, lookup_empty in Es by discriminate.
    destruct Es as [Qs _]. rewrite Qs, Qf. now rewrite <- app_assoc.
Qed.

End Loads.

(** ** The page *)

Lemma get_none_iff (s : string) :
  forall i : nat, String.get i s = None <-> (String.length s <= i)%nat.
Proof.
  induction s as [| c s IH]; intros [| i]; cbn [String.get String.length].
  - split; [lia | reflexivity].
  - split; [lia | reflexivity].
  - split; [discriminate | lia].
  - rewrite IH. lia.
Qed.

Lemma regenerate_args_raises (lucky : bool) (topic style : string) (i j : nat)
    (e : string) :
  regenerate_args lucky topic style i j = Raised e
  <-> lucky = true /\ e = "IndexError"
      /\ ((String.length topic <= i)%nat \/ (String.length style <= j)%nat).
Proof.
  unfold regenerate_args, random_choice.
  destruct lucky; [| split; [discriminate | intros [H _]; discriminate H]].
  destruct (String.get i topic) as [c |] eqn:Ht.
  - destruct (String.get j style) as [d |] eqn:Hs.
    + split; [discriminate |].
      intros (_ & _ & [H | H]); apply get_none_iff in H; congruence.
    + split.
      * intros [= <-]. repeat split. right. now apply get_none_iff.
      * now intros (_ & -> & _).
  - split.
    + intros [= <-]. repeat split. left. now apply get_none_iff.
    + now intros (_ & -> & _).
Qed.

(** The cases of a page: the post, the two messages, the image, and the
    arguments of [Regenerate text]. *)
Ltac page_cases clicked topic style i j s0 :=
  unfold page_widgets, page_result, page_session, page, render_generate_button;
  cbn [post image text_error image_error feeling_lucky set_feeling_lucky];
  destruct (post s0) as [| ? ?] eqn:?;
  destruct (Str.truthy (text_error s0)) eqn:?;
  cbn [Str.truthy];
  try (destruct (regenerate_args (negb clicked) topic style i j) as [[? ?] | ?] eqn:?;
       destruct (Str.truthy (image s0)) eqn:?;
       destruct (Str.truthy (image_error s0)) eqn:?);
  cbn [fst snd app offered callback_of banners shown_posts negb List.filter
       is_generate_image].

(** X12. Every button of a page that generates an image carries the post
    shown in its text area, which is not empty: through the page,
    [generate_image] is never called with an empty prompt. A page that was
    drawn to its end for a non-empty post has exactly one such button, and a
    page for an empty post offers [Generate text] only. *)
Theorem image_buttons_carry_the_post (clicked : bool) (topic style : string)
    (i j : nat) (s0 : session_state) :
  (forall p,
      In (Generate_image p) (offered (page_widgets clicked topic style i j s0)) ->
      p = post s0 /\ p <> ""
      /\ shown_posts (page_widgets clicked topic style i j s0) = [p])
  /\ (post s0 <> "" ->
      page_result clicked topic style i j s0 = Returned tt ->
      List.filter is_generate_image
        (offered (page_widgets clicked topic style i j s0))
      = [Generate_image (post s0)])
  /\ (post s0 = "" ->
      offered (page_widgets clicked topic style i j s0) = [Generate_text topic style]).
Proof.
  split; [| split].
  - intros p.
    page_cases clicked topic style i j s0; cbn [In];
      intros H;
      repeat match goal with
             | H : _ \/ _ |- _ => destruct H
             | H : False |- _ => destruct H
             | H : Generate_text _ _ = Generate_image _ |- _ => discriminate H
             | H : Generate_image _ = Generate_image _ |- _ => injection H as <-
             end;
      (split; [reflexivity | split; [discriminate | reflexivity]]).
  - page_cases clicked topic style i j s0; intros Hp Hr;
      try congruence; try discriminate Hr; reflexivity.
  - page_cases clicked topic style i j s0; intros Hp;
      try discriminate Hp; reflexivity.
Qed.

(** X13. For select boxes that hold strings and indices drawn as
    [random.choice] draws them, a script run raises in this part exactly
    when there is a post, the run does not follow a click on
    [Generate text], and the selected topic or the selected style is the
    empty string. The exception is [IndexError], and the page then stops at
    the post, with [Generate text] as its only button. Otherwise the part
    runs to its end. *)
Theorem page_raises_on_an_empty_selection (clicked : bool) (topic style : string)
    (i j : nat) (s0 : session_state) :
  drawn_below topic i ->
  drawn_below style j ->
  (page_result clicked topic style i j s0 = Raised "IndexError"
   <-> post s0 <> "" /\ clicked = false /\ (topic = "" \/ style = ""))
  /\ (forall e,
         page_result clicked topic style i j s0 = Raised e ->
         e = "IndexError"
         /\ offered (page_widgets clicked topic style i j s0)
            = [Generate_text topic style]
         /\ shown_posts (page_widgets clicked topic style i j s0) = [post s0])
  /\ (page_result clicked topic style i j s0 = Returned tt
      \/ page_result clicked topic style i j s0 = Raised "IndexError").
Proof.
  intros Hi Hj.
  assert (Hlen : ((String.length topic <= i)%nat \/ (String.length style <= j)%nat)
                 <-> (topic = "" \/ style = "")).
  { unfold drawn_below in Hi, Hj. split.
    - intros [H | H]; [left; destruct Hi as [Hi | Hi] | right; destruct Hj as [Hj | Hj]];
        first [assumption | lia].
    - intros [-> | ->]; [left | right]; cbn; lia. }
  split; [| split].
  - unfold page_result, page, render_generate_button.
    cbn [post feeling_lucky set_feeling_lucky].
    destruct (post s0) as [| c rest] eqn:Hp; cbn [Str.truthy snd].
    + split; [discriminate | intros [H _]; now contradiction H].
    + destruct (regenerate_args (negb clicked) topic style i j) as [[t y] | e] eqn:Ha;
        cbn [snd].
      * split; [discriminate |].
        intros (_ & -> & He). apply Hlen in He.
        assert (Hr : regenerate_args (negb false) topic style i j = Raised "IndexError")
          by (apply regenerate_args_raises; auto).
        congruence.
      * apply regenerate_args_raises in Ha as (Hc & -> & Hl).
        split; [| reflexivity].
        intros _. repeat split; [discriminate | | now apply Hlen].
        now destruct clicked.
  - intros e.
    page_cases clicked topic style i j s0; intros Hr; try discriminate Hr;
      injection Hr as <-;
      match goal with
      | H : regenerate_args _ _ _ _ _ = Raised _ |- _ =>
          apply regenerate_args_raises in H as (_ & -> & _)
      end;
      repeat split.
  - page_cases clicked topic style i j s0; try (now left);
      match goal with
      | H : regenerate_args _ _ _ _ _ = Raised _ |- _ =>
          apply regenerate_args_raises in H as (_ & -> & _)
      end;
      now right.
Qed.

(** A page for a session without an image shows no picture and does not
    offer to regenerate one. *)
Lemma page_without_image (clicked : bool) (topic style : string) (i j : nat)
    (s0 : session_state) (w : widget) :
  image s0 = "" ->
  In w (page_widgets clicked topic style i j s0) ->
  match w with
  | Picture _ => False
  | Button label _ _ => label <> "Regenerate image"
  | _ => True
  end.
Proof.
  intros Hi.
  unfold page_widgets, page, render_generate_button.
  cbn [post image text_error image_error feeling_lucky set_feeling_lucky].
  rewrite Hi. cbn [Str.truthy negb].
  destruct (Str.truthy (post s0));
    destruct (Str.truthy (text_error s0));
    try (destruct (regenerate_args (negb clicked) topic style i j) as [[? ?] | ?];
         destruct (Str.truthy (image_error s0)));
    cbn [fst snd app In]; intros H;
    repeat match goal with
           | H : _ \/ _ |- _ => destruct H
           | H : False |- _ => destruct H
           | H : _ = w |- _ => subst w
           end;
    try exact I; discriminate.
Qed.

Section Pages.

Context {W : Type} (openai : Openai W).

(** X14. In a session a page has at most one error banner, and it shows
    [text_error]: a banner for [image_error] never appears. *)
Theorem only_text_errors_are_shown (l : list action) (x : W) (clicked : bool)
    (topic style : string) (i j : nat) (m : string) :
  In m (banners (page_widgets clicked topic style i j
                   (session (perform_all openai l (new_session x))))) ->
  m = text_error (session (perform_all openai l (new_session x)))
  /\ m <> ""
  /\ banners (page_widgets clicked topic style i j
                (session (perform_all openai l (new_session x)))) = [m].
Proof.
  pose proof (image_error_untouched_all openai l (new_session x)) as He.
  cbn [new_session session configure_state image_error] in He.
  set (s0 := session (perform_all openai l (new_session x))) in *.
  unfold page_widgets, page, render_generate_button.
  cbn [post image text_error image_error feeling_lucky set_feeling_lucky].
  rewrite He. cbn [Str.truthy].
  destruct (text_error s0) as [| c rest] eqn:Ht; cbn [Str.truthy];
    destruct (Str.truthy (post s0));
    try (destruct (regenerate_args (negb clicked) topic style i j) as [[? ?] | ?];
         destruct (Str.truthy (image s0)));
    cbn [fst snd app banners negb In]; intros H;
    repeat match goal with
           | H : _ \/ _ |- _ => destruct H
           | H : False |- _ => destruct H
           end;
    subst m; repeat split; discriminate.
Qed.

(** X15. A completion that is empty once cleaned (white space, quotes) is a
    successful call like any other: it is counted and no message is set;
    but the post is empty, so the page that follows shows no post, no
    banner, and no button but [Generate text]. *)
Theorem blank_completion_shows_nothing (topic style reply : string) (w : world W)
    (x y : W) (clicked : bool) (topic' style' : string) (i j : nat) :
  n_requests (session w) < 5 ->
  topic <> "" ->
  moderate openai (text_prompt topic style) (remote w) = (Returned false, x) ->
  complete openai (text_prompt topic style) None None x = (Returned reply, y) ->
  Str.clean reply = "" ->
  let r := generate_text openai topic style w in
  successful (Generate_text topic style) r = true
  /\ n_requests (session (final r)) = n_requests (session w) + 1
  /\ page_result clicked topic' style' i j (session (final r)) = Returned tt
  /\ page_widgets clicked topic' style' i j (session (final r))
     = [Columns 2;
        In_column 1 (Button "Generate text" "primary" (Generate_text topic' style'));
        Placeholder].
Proof.
  intros Hn Ht Hm Hc Hb. cbv zeta.
  unfold successful, issued.
  by_text_path openai topic style w; try lia; try congruence.
  match goal with
  | H : moderate _ _ _ = (Returned false, _) |- _ =>
      rewrite Hm in H; injection H as <-
  end.
  match goal with
  | H : complete _ _ _ _ _ = (Returned _, _) |- _ =>
      rewrite Hc in H; injection H as <- <-
  end.
  cbn [result final calls session returned existsb delivers is_complete andb orb].
  rewrite Hb.
  repeat split.
Qed.

(** X16. Whatever came of it, a run of [generate_text] that passed the gate
    has put the image away: the page that follows shows no picture and does
    not offer [Regenerate image]. *)
Theorem new_text_puts_the_image_away (topic style : string) (w : world W)
    (clicked : bool) (topic' style' : string) (i j : nat) (v : widget) :
  n_requests (session w) < 5 ->
  In v (page_widgets clicked topic' style' i j
          (session (final (generate_text openai topic style w)))) ->
  match v with
  | Picture _ => False
  | Button label _ _ => label <> "Regenerate image"
  | _ => True
  end.
Proof.
  intros Hn. apply page_without_image.
  by_text_path openai topic style w; try lia; reflexivity.
Qed.

End Pages.

(** * More instances *)

Lemma call_after_rejection_passes_witness :
  n_requests (session (final (perform obliging (Generate_text "Streams" "") at_limit))) = 1
  /\ (exists rest,
        calls (generate_image obliging "An earlier post"
                 (final (perform obliging (Generate_text "Streams" "") at_limit)))
        = Complete (processing_prompt "An earlier post") (Some (1 # 2)%Q) (Some 200)
            :: rest)
  /\ (exists rest,
        calls (generate_text obliging "Time Travel" "witty"
                 (final (perform obliging (Generate_text "Streams" "") at_limit)))
        = Moderate (text_prompt "Time Travel" "witty") :: rest).
Proof.
  refine (call_after_rejection_passes obliging (Generate_text "Streams" "") at_limit
            "An earlier post" "Time Travel" "witty" eq_refl _ _);
    [cbn; lia | discriminate].
Defined.

Lemma generate_image_frame_witness :
  text_error (session (final (generate_image obliging "An earlier post" rejected)))
  = text_limit_message
  /\ post (session (final (generate_image obliging "An earlier post" rejected)))
     = "An earlier post"
  /\ image (session (final (generate_image no_completion "An earlier post" rejected)))
     = "https://images.example/0.png".
Proof.
  assert (Hn : n_requests (session rejected) < 5) by (cbn; lia).
  pose proof (generate_image_frame obliging "An earlier post" rejected Hn)
    as (Hp & Ht & _).
  pose proof (generate_image_frame no_completion "An earlier post" rejected Hn)
    as (_ & _ & _ & Hi).
  split; [exact Ht |]. split; [exact Hp | exact (Hi eq_refl)].
Defined.

Lemma generate_text_failure_erases_witness :
  post (session (final
    (generate_text no_completion "Search Optimization" "witty" below_limit))) = ""
  /\ image (session (final
       (generate_text no_completion "Search Optimization" "witty" below_limit))) = ""
  /\ text_error (session (final
       (generate_text no_completion "Search Optimization" "witty" below_limit))) = ""
  /\ n_requests (session (final
       (generate_text no_completion "Search Optimization" "witty" below_limit))) = 2 + 1.
Proof.
  pose proof (generate_text_failure_erases no_completion "Search Optimization" "witty"
                below_limit eq_refl) as (_ & _ & Hp & Hi & Ht & _ & _ & Hn).
  split; [exact Hp |]. split; [exact Hi |]. split; [exact Ht |].
  destruct Hn as [[Hc _] | [_ Hn]]; [| exact Hn].
  vm_compute in Hc. discriminate Hc.
Defined.

Lemma image_request_is_one_sentence_witness :
  "A lighthouse." <> ""
  /\ exists segment,
       "A lighthouse." = segment ++ "."
       /\ char_in "." segment = false
       /\ char_in Str.DQUOTE segment = false.
Proof.
  refine (image_request_is_one_sentence quoting "A fine post. #datasuperhero"
            "A lighthouse." below_limit _).
  right. left. reflexivity.
Defined.

Lemma log_only_grows_witness :
  logged (final (perform obliging (Generate_text "Streams" "")
                   (perform_all obliging five_calls (new_session tt))))
  = (logged (perform_all obliging five_calls (new_session tt))
     ++ ["Session request limit reached: 5"])%list.
Proof.
  refine (proj2 (log_only_grows obliging five_calls tt (Generate_text "Streams" ""))
            eq_refl _).
  vm_compute. discriminate.
Defined.

Lemma failed_load_is_retried_witness :
  cache (mkProcess tt (∅ : gmap string (list (Row string))) ["missing"])
  = cache started
  /\ queries (mkProcess tt (∅ : gmap string (list (Row string))) ["missing"])
     = (queries started ++ ["missing"])%list.
Proof.
  pose proof (failed_load_is_retried catalogs "missing" "SnowparkSQLException" started
                (mkProcess tt ∅ ["missing"]) eq_refl) as (Hc & Hq & _).
  split; [exact Hc | exact Hq].
Defined.

Lemma cache_entries_are_kept_witness :
  cache both_loaded !! "snowflake_features"
  = Some [mkRow "Search Optimization" ["GA"]; mkRow "Time Travel" ["GA"]]
  /\ cache both_loaded !! "snowflake_features" = cache topics_loaded !! "snowflake_features".
Proof.
  pose proof (cache_entries_are_kept catalogs "style" "snowflake_features"
                topics_loaded both_loaded
                (Returned [mkRow "witty" []; mkRow "formal" []]) eq_refl)
    as (Hk & Hn & _).
  split; [exact (Hk _ eq_refl) | apply Hn; discriminate].
Defined.

Lemma catalogs_are_loaded_once_witness :
  load_catalogs catalogs both_loaded
  = (Returned (["Search Optimization"; "Time Travel"], ["witty"; "formal"]), both_loaded)
  /\ queries both_loaded = (queries started ++ ["snowflake_features"; "style"])%list.
Proof.
  pose proof (catalogs_are_loaded_once catalogs started both_loaded
                ["Search Optimization"; "Time Travel"] ["witty"; "formal"] eq_refl)
    as (Hr & Hq).
  split; [exact Hr | exact (Hq eq_refl)].
Defined.

Lemma image_buttons_carry_the_post_witness :
  ("An earlier post" = post (session below_limit)
   /\ "An earlier post" <> ""
   /\ shown_posts (page_widgets false "Time Travel" "witty" 2 3 (session below_limit))
      = ["An earlier post"])
  /\ List.filter is_generate_image
       (offered (page_widgets false "Time Travel" "witty" 2 3 (session below_limit)))
     = [Generate_image (post (session below_limit))].
Proof.
  pose proof (image_buttons_carry_the_post false "Time Travel" "witty" 2 3
                (session below_limit)) as (Hb & Hone & _).
  split.
  - apply Hb. right. right. left. reflexivity.
  - apply Hone; [discriminate | reflexivity].
Defined.

Lemma page_raises_on_an_empty_selection_witness :
  page_result false "Time Travel" "" 4 0 (session below_limit) = Raised "IndexError"
  /\ page_result false "Time Travel" "witty" 4 2 (session below_limit) = Returned tt.
Proof.
  assert (Ht : drawn_below "Time Travel" 4) by (right; cbn; lia).
  assert (He : drawn_below "" 0) by (left; reflexivity).
  assert (Hs : drawn_below "witty" 2) by (right; cbn; lia).
  pose proof (page_raises_on_an_empty_selection false "Time Travel" "" 4 0
                (session below_limit) Ht He) as (Hraise & _).
  pose proof (page_raises_on_an_empty_selection false "Time Travel" "witty" 4 2
                (session below_limit) Ht Hs) as (Hnot & _ & Hend).
  split.
  - apply Hraise. split; [discriminate |]. split; [reflexivity | now right].
  - destruct Hend as [Hend | Hend]; [exact Hend |].
    apply Hnot in Hend as (_ & _ & [H | H]); discriminate H.
Defined.

Lemma only_text_errors_are_shown_witness :
  text_limit_message = text_error (session (perform_all obliging six_calls (new_session tt)))
  /\ text_limit_message <> ""
  /\ banners (page_widgets false "Time Travel" "witty" 2 3
                (session (perform_all obliging six_calls (new_session tt))))
     = [text_limit_message].
Proof.
  refine (only_text_errors_are_shown obliging six_calls tt false "Time Travel" "witty"
            2 3 text_limit_message _).
  vm_compute. left. reflexivity.
Defined.

Lemma blank_completion_shows_nothing_witness :
  successful (Generate_text "Time Travel" "witty")
    (generate_text blank "Time Travel" "witty" below_limit) = true
  /\ n_requests (session (final (generate_text blank "Time Travel" "witty" below_limit)))
     = n_requests (session below_limit) + 1
  /\ page_result true "Time Travel" "witty" 0 0
       (session (final (generate_text blank "Time Travel" "witty" below_limit)))
     = Returned tt
  /\ page_widgets true "Time Travel" "witty" 0 0
       (session (final (generate_text blank "Time Travel" "witty" below_limit)))
     = [Columns 2;
        In_column 1 (Button "Generate text" "primary" (Generate_text "Time Travel" "witty"));
        Placeholder].
Proof.
  refine (blank_completion_shows_nothing blank "Time Travel" "witty" blank_reply
            below_limit tt tt true "Time Travel" "witty" 0 0 _ _ eq_refl eq_refl eq_refl);
    [cbn; lia | discriminate].
Defined.

Lemma new_text_puts_the_image_away_witness :
  image (session below_limit) = "https://images.example/0.png"
  /\ "Generate image" <> "Regenerate image".
Proof.
  split; [reflexivity |].
  refine (new_text_puts_the_image_away obliging "Time Travel" "witty" below_limit
            true "Time Travel" "witty" 0 0
            (Button "Generate image" "primary"
               (Generate_image "A fine post. With a second sentence."))
            _ _);
    [cbn; lia |].
  vm_compute. do 7 right. left. reflexivity.
Defined.
